(** * Model selection and cross-validation of the seizure-prediction pipeline

    A shallow embedding of [src/python/classification/seizure_modeling.py]
    and [src/python/wavelet_classification.py].

    Conventions.
    - A Python float is held as a rational ([Q]); comparisons and
      truncations are exact on it. The product the program takes of two
      floats is rounded to double precision ([double_mul]). The numerics
      inside library calls (the grid values of [np.linspace], the scores of
      [roc_auc_score] and their mean) are stated over the rationals, and a
      float literal of a parameter grid is the decimal it spells.
    - A Python exception is a value of [exn]; a call that can raise returns
      [result A]. The specification's error taxonomy names the same events:
      [NotImplementedError] is its UnsupportedMethodError, the [ValueError]
      of [np.random.choice] its InsufficientDataError.
    - Library code (numpy, scikit-learn) is not part of the repository. It
      enters either as a parameter or through a definition that states its
      documented contract; each such place says so. *)

From Stdlib Require Import ZArith QArith Qround Qabs List String Bool Lia Lqa.
From stdpp Require Import base option list gmap strings pretty.

Open Scope string_scope.
Open Scope list_scope.

(* ===================================================================== *)
(** ** Python values, exceptions *)
(* ===================================================================== *)

Inductive exn : Type :=
| NotImplementedError
| ValueError
| AssertionError
| TypeError
| IndexError
| UnboundLocalError
| ConfigurationError.

Abbreviation result A := (sum exn A).

Definition raise {A} (e : exn) : result A := inl e.
Definition ret {A} (a : A) : result A := inr a.

Definition rbind {A B} (m : result A) (k : A -> result B) : result B :=
  match m with
  | inl e => inl e
  | inr a => k a
  end.

Notation "x <- m ;; k" := (rbind m (fun x => k))
  (at level 100, m at next level, right associativity).

Fixpoint mapM {A B} (f : A -> result B) (l : list A) : result (list B) :=
  match l with
  | [] => ret []
  | a :: l' => b <- f a ;; bs <- mapM f l' ;; ret (b :: bs)
  end.

(** The classifier classes the registry can name. *)
Inductive model_class : Type :=
| LogisticRegression
| SVC
| SGDClassifier
| RandomForestClassifier
| NearestCentroid
| KNeighborsClassifier
| BaggingClassifier.

(** Values stored in parameter dictionaries and constructor keywords. An
    unfitted estimator is its class and the keywords it was built with. *)
#[warnings="-register-all"] Inductive value : Type :=
| VNone
| VBool (b : bool)
| VInt (z : Z)
| VFloat (q : Q)
| VStr (s : string)
| VList (l : list value)
| VEst (cls : model_class) (kwargs : list (string * value)).

Definition opt_int (o : option Z) : value :=
  match o with
  | None => VNone
  | Some z => VInt z
  end.

(** [np.linspace(start, stop, num)] for [num >= 2]: [num] evenly spaced
    points, both ends included. *)
Definition linspace (start stop : Q) (num : nat) : list Q :=
  map (fun i : nat =>
         (start + inject_Z (Z.of_nat i) * ((stop - start) / inject_Z (Z.of_nat (num - 1))))%Q)
      (seq 0 num).

Definition floats (l : list Q) : value := VList (map VFloat l).
Definition strs (l : list string) : value := VList (map VStr l).
Definition ints (l : list Z) : value := VList (map VInt l).

(** Python's [range(a, b)] on integers. *)
Definition range (a b : Z) : list Z :=
  map (fun i : nat => (a + Z.of_nat i)%Z) (seq 0 (Z.to_nat (b - a))).

(* ===================================================================== *)
(** ** The store of caller-owned dictionaries

    [model_params] is a Python dict passed by reference: [get_model] may
    write to it, and the grid it returns may be that very object. A dict
    object lives at a location of the store. *)
(* ===================================================================== *)

Abbreviation loc := positive.
Abbreviation pydict := (gmap string value).
Abbreviation store := (gmap loc pydict).

(** [d[k] = v] on the dict at [l]. *)
Definition setitem (l : loc) (k : string) (v : value) (h : store) : store :=
  match h !! l with
  | Some d => <[l := <[k := v]> d]> h
  | None => h
  end.

(** [k in d] on the dict at [l]. *)
Definition contains (l : loc) (k : string) (h : store) : bool :=
  match h !! l with
  | Some d => bool_decide (is_Some (d !! k))
  | None => false
  end.

(** A parameter grid is a dict literal, a list of dict literals, or a
    reference to a dict of the caller. *)
Inductive grid : Type :=
| GridDict (d : pydict)
| GridList (ds : list pydict)
| GridRef (l : loc).

Record model_dict : Type := mk_model_dict {
  estimator : value;
  param_grid : grid
}.

(* ===================================================================== *)
(** ** Data frames

    A feature table is a list of rows in table order. A row is keyed by
    (segment, frame), carries its features and the [Preictal] label column
    that the loader adds (1 for preictal files, 0 for interictal ones). *)
(* ===================================================================== *)

Record row : Type := mk_row {
  segment : string;
  frame : nat;
  feats : list Q;
  Preictal : Z
}.

Abbreviation dataframe := (list row).
Abbreviation label := (string * nat)%type.

(** [dataframe.index.values] *)
Definition index (r : row) : label := (segment r, frame r).

(** [set(df.index.get_level_values('segment'))] *)
Definition segment_ids (df : dataframe) : gset string :=
  list_to_set (map segment df).

(** Positions at which a boolean mask is true, in increasing order. *)
Fixpoint mask_positions_from (i : nat) (msk : list bool) : list nat :=
  match msk with
  | [] => []
  | b :: msk' =>
    if b then i :: mask_positions_from (S i) msk'
    else mask_positions_from (S i) msk'
  end.

Definition mask_positions (msk : list bool) : list nat :=
  mask_positions_from 0 msk.

(** Positional selection of rows, [a[idx]]. *)
Definition iloc {A} (a : list A) (idx : list nat) : list A :=
  omap (fun i => a !! i) idx.

(** [a[msk]] for a boolean mask. *)
Definition boolean_index {A} (a : list A) (msk : list bool) : list A :=
  iloc a (mask_positions msk).

(** [dataframe.ix[rows]] for a list of index labels: for each label in turn,
    the rows that carry it. *)
Definition ix (df : dataframe) (rows : list label) : dataframe :=
  flat_map (fun lbl => filter (fun r => index r = lbl) df) rows.

(** [dataframe.drop(rows)] *)
Definition drop_rows (df : dataframe) (rows : list label) : dataframe :=
  filter (fun r => index r ∉ rows) df.

(* ===================================================================== *)
(** ** Double-precision arithmetic

    A Python float is a binary64 number: a multiple [m * 2 ^ e] with
    [|m| < 2 ^ 53] and [-1074 <= e]. An operation on floats returns the
    exact result rounded to the nearest such number, ties going to the even
    [m]. The exponent is not bounded above here: a result beyond the largest
    double, which Python holds as [inf], is outside what is modelled. *)
(* ===================================================================== *)

(** [2 ^ k] for an integer [k] of either sign. *)
Definition pow2 (k : Z) : Q :=
  if (0 <=? k)%Z then inject_Z (2 ^ k) else 1 # Z.to_pos (2 ^ (- k)).

(** [floor (log2 a)] for a positive rational [a]. *)
Definition ilog2 (a : Q) : Z :=
  let k := (Z.log2 (Qnum a) - Z.log2 (Z.pos (Qden a)))%Z in
  if Qle_bool (pow2 k) a then k else (k - 1)%Z.

(** The nearest integer, ties to even. *)
Definition round_half_even (x : Q) : Z :=
  let f := Qfloor x in
  match (x - inject_Z f ?= 1 # 2)%Q with
  | Lt => f
  | Gt => (f + 1)%Z
  | Eq => if Z.even f then f else (f + 1)%Z
  end.

(** The double nearest to a rational; also the float a decimal literal
    denotes. *)
Definition round_double (q : Q) : Q :=
  match Qnum q with
  | 0%Z => 0
  | _ =>
    let a := Qabs q in
    let e := Z.max (ilog2 a - 52) (-1074) in
    let v := (inject_Z (round_half_even (a / pow2 e)) * pow2 e)%Q in
    Qred (if (Qnum q <? 0)%Z then - v else v)
  end.

(** The largest finite double. *)
Definition double_max : Q := inject_Z ((2 ^ 53 - 1) * 2 ^ 971).

(** [float(z)] for a Python [int]. *)
Definition double_of_Z (z : Z) : Q := round_double (inject_Z z).

(** [x * y] on floats. *)
Definition double_mul (x y : Q) : Q := round_double (x * y).

(* ===================================================================== *)
(** ** The process-wide random generators

    Two module-level generators exist: Python's [random] and [np.random].
    Their algorithms are library code; what the program relies on is stated
    as an interface. *)
(* ===================================================================== *)

Class Generators (PyG NpG : Type) : Type := {
  (** [random.randrange(lo, hi)] *)
  randrange : Z -> Z -> PyG -> Z * PyG;
  (** [np.random.seed(s)]: the state a seed determines *)
  np_seed : Z -> NpG;
  (** one uniform draw of [np.random.rand] *)
  np_uniform : NpG -> Q * NpG;
  (** the positions [np.random.choice(.., size, replace=False)] picks out
      of a population of [pop] elements *)
  np_sample : nat -> nat -> NpG -> list nat * NpG;
  (** sampling without replacement: [size] distinct positions *)
  np_sample_spec : forall pop size g,
    size <= pop ->
    NoDup (np_sample pop size g).1 /\
    length (np_sample pop size g).1 = size /\
    Forall (fun i => i < pop) (np_sample pop size g).1
}.

(** What the program prints (to stdout, the warning to stderr), as data. *)
Inductive printed : Type :=
| WarningCounts (preictal_samples interictal_samples : nat)
| OriginalInterictal (n : nat)
| OriginalPreictal (n : nat)
| AfterDownsampling (n : nat)
| CombinedSamples (n : nat).

Record world (PyG NpG : Type) : Type := mk_world {
  py_random : PyG;
  np_random : NpG;
  console : list printed
}.
Arguments mk_world {PyG NpG}.
Arguments py_random {PyG NpG}.
Arguments np_random {PyG NpG}.
Arguments console {PyG NpG}.

Definition Qltb (x y : Q) : bool := negb (Qle_bool y x).

(** Conversion of a float to an integer count (truncation toward zero). *)
Definition int_of_float (q : Q) : Z := Z.quot (Qnum q) (Z.pos (Qden q)).

Section Numpy.
Context {PyG NpG : Type} `{Generators PyG NpG}.

(** [np.random.rand(n)] *)
Fixpoint np_rand (n : nat) (g : NpG) : list Q * NpG :=
  match n with
  | O => ([], g)
  | S n' =>
    let '(u, g1) := np_uniform g in
    let '(us, g2) := np_rand n' g1 in
    (u :: us, g2)
  end.

(** [np.random.choice(a, size, replace=False)]: numpy's contract. A float
    [size] is truncated; a sample larger than the population is a
    [ValueError]. *)
Definition np_random_choice {A} (a : list A) (size : Q) (g : NpG)
    : result (list A) * NpG :=
  let n := int_of_float size in
  if (n <? 0)%Z then (raise ValueError, g)
  else if (Z.of_nat (length a) <? n)%Z then (raise ValueError, g)
  else
    let '(idx, g') := np_sample (length a) (Z.to_nat n) g in
    (ret (iloc a idx), g').
End Numpy.

(* ===================================================================== *)
(** ** scikit-learn: the calls the program makes

    Library code, stated by its documented behaviour. *)
(* ===================================================================== *)

Abbreviation matrix := (list (list Q)).
Abbreviation fold := (list nat * list nat)%type.

(** A fitted estimator: its class ordering, [predict], and [predict_proba]
    when the estimator has one. *)
Record fitted : Type := mk_fitted {
  classes_ : list Z;
  est_predict : matrix -> list Z;
  est_predict_proba : option (matrix -> matrix)
}.

Definition scorer : Type := fitted -> matrix -> list Z -> result Q.

(** [make_scorer(score_func, **kwargs)] with its defaults
    ([needs_proba=False], [needs_threshold=False]): the scorer calls
    [estimator.predict(X)] and hands the labels to [score_func]. *)
Definition make_scorer (score_func : list Z -> list Q -> string -> result Q)
    (average : string) : scorer :=
  fun est X y_true =>
    score_func y_true (map inject_Z (est_predict est X)) average.

(** Twice the credit of a (positive, negative) pair of scores. *)
Definition pair_credit (sp sn : Q) : Z :=
  if Qltb sn sp then 2 else if Qeq_bool sp sn then 1 else 0.

Definition sumZ (l : list Z) : Z := fold_right Z.add 0%Z l.

(** [roc_auc_score(y_true, y_score, average=..)] on binary labels, positive
    class 1: the share of (positive, negative) pairs that the scores order
    correctly, ties counting one half. With one class only in [y_true] it
    raises [ValueError]. [average] plays no part for binary labels. *)
Definition roc_auc_score (y_true : list Z) (y_score : list Q)
    (average : string) : result Q :=
  let samples := zip y_true y_score in
  let pos := map snd (filter (fun p => p.1 = 1%Z) samples) in
  let neg := map snd (filter (fun p => p.1 <> 1%Z) samples) in
  match pos, neg with
  | [], _ | _, [] => raise ValueError
  | _, _ =>
    let credit := sumZ (map (fun sp => sumZ (map (pair_credit sp) neg)) pos) in
    ret (Qred (inject_Z credit
               / inject_Z (2 * Z.of_nat (length pos) * Z.of_nat (length neg))))
  end.

(** A K-fold iterator yields, for each test mask, the complement of the
    mask as train indices and the mask as test indices. *)
Definition partition_iterator (test_masks : list (list bool)) : list fold :=
  map (fun m => (mask_positions (map negb m), mask_positions m)) test_masks.

Record grid_search : Type := mk_grid_search {
  grid_scores_ : list (pydict * list Q);
  best_params_ : pydict;
  best_estimator_ : fitted
}.

Definition mean (l : list Q) : Q :=
  Qred (fold_right Qplus 0%Q l / inject_Z (Z.of_nat (length l))).

(** The candidate with the highest mean score, the first one on ties. *)
Fixpoint best_of (best : pydict * list Q) (rest : list (pydict * list Q))
    : pydict * list Q :=
  match rest with
  | [] => best
  | c :: rest' =>
    if Qltb (mean best.2) (mean c.2) then best_of c rest' else best_of best rest'
  end.

Section GridSearch.

(** [ParameterGrid]: the candidate configurations of a grid, in its
    enumeration order. *)
Variable ParameterGrid : list pydict -> list pydict.

(** Cloning an estimator, setting a configuration and fitting it. *)
Variable fit : value -> pydict -> matrix -> list Z -> result fitted.

Definition fit_and_score (est : value) (params : pydict) (scoring : scorer)
    (X : matrix) (y : list Z) (f : fold) : result Q :=
  e <- fit est params (iloc X f.1) (iloc y f.1) ;;
  scoring e (iloc X f.2) (iloc y f.2).

(** [GridSearchCV(est, param_grid, cv=cv, scoring=scoring, refit=True,
    iid=False).fit(X, y)] *)
Definition GridSearchCV_fit (est : value) (param_grid : list pydict)
    (cv : list fold) (scoring : scorer) (X : matrix) (y : list Z)
    : result grid_search :=
  scores <- mapM (fun params =>
                    s <- mapM (fit_and_score est params scoring X y) cv ;;
                    ret (params, s))
                 (ParameterGrid param_grid) ;;
  match scores with
  | [] => raise ValueError
  | c :: rest =>
    let best := best_of c rest in
    e <- fit est best.1 X y ;;
    ret (mk_grid_search scores best.1 e)
  end.

End GridSearch.

(* ===================================================================== *)
(** ** The segment-aware splitter ([datasets/dataset.py])

    The module is imported by [seizure_modeling.py] and is not among the
    sources; its splitter is written down from the specification. *)
(* ===================================================================== *)

Module Dataset.

(** Modelled from the spec: the distinct [segment_id]s of a dataset, the
    collection the splitter collapses the rows to. *)
Definition segment_names (df : dataframe) : list string :=
  remove_dups (map segment df).

(** Modelled from the spec: the representative label of a segment, the
    majority label of its rows. *)
Definition segment_label (df : dataframe) (s : string) : Z :=
  let rows := filter (fun r => segment r = s) df in
  let ones := length (filter (fun r => Preictal r = 1%Z) rows) in
  if (length rows <? 2 * ones)%nat then 1%Z else 0%Z.

(** Modelled from the spec: expansion of a set of segments back to row
    indices by membership lookup. *)
Definition rows_of (df : dataframe) (segs : list string) : list nat :=
  mask_positions (map (fun r => bool_decide (segment r ∈ segs)) df).

(** Modelled from the spec: [SegmentCrossValidator(dataframe, base_cv,
    n_folds, random_state)]. It collapses the dataset to one label per
    segment, runs the base K-fold over the segments, and expands every
    segment-level fold to row indices. It raises [ConfigurationError] when
    [n_folds] exceeds the number of distinct segments or when a class is
    absent from the segment-level labels. *)
Definition SegmentCrossValidator (df : dataframe)
    (base_cv : list Z -> nat -> option Z -> result (list (list bool)))
    (n_folds : nat) (random_state : option Z) : result (list fold) :=
  let segs := segment_names df in
  if (length segs <? n_folds)%nat then raise ConfigurationError
  else
    let seg_labels := map (segment_label df) segs in
    if negb (bool_decide (0%Z ∈ seg_labels) && bool_decide (1%Z ∈ seg_labels))
    then raise ConfigurationError
    else
      test_masks <- base_cv seg_labels n_folds random_state ;;
      ret (map (fun m =>
                  (rows_of df (boolean_index segs (map negb m)),
                   rows_of df (boolean_index segs m)))
               test_masks).

(** Modelled from the spec: the train/test partition of the segment-aware
    splitter, [split_experiment_data(interictal, preictal, training_ratio,
    do_segment_split, random_state)] as [train_model] calls it. The two
    class tables are merged; with [do_segment_split] the rows are collapsed
    to one label per segment, [base_split] (the seeded train/test strategy
    underneath, which marks the test side) runs over the segments, and each
    side is expanded back to rows by membership lookup. Without
    [do_segment_split] the same strategy runs over the rows. *)
Definition split_experiment_data
    (base_split : list Z -> Q -> option Z -> list bool)
    (interictal preictal : dataframe) (training_ratio : Q)
    (do_segment_split : bool) (random_state : option Z)
    : dataframe * dataframe :=
  let df := interictal ++ preictal in
  if do_segment_split then
    let segs := segment_names df in
    let m := base_split (map (segment_label df) segs) training_ratio
                        random_state in
    (iloc df (rows_of df (boolean_index segs (map negb m))),
     iloc df (rows_of df (boolean_index segs m)))
  else
    let m := base_split (map Preictal df) training_ratio random_state in
    (boolean_index df (map negb m), boolean_index df m).

End Dataset.

(* ===================================================================== *)
(** ** [classification/seizure_modeling.py] *)
(* ===================================================================== *)

Module Modeling.

Definition get_model_class (method : string) : result model_class :=
  if String.eqb method "logistic" then ret LogisticRegression
  else if String.eqb method "svm" then ret SVC
  else if String.eqb method "mirowski-svm" then ret SVC
  else if String.eqb method "sgd" then ret SGDClassifier
  else if String.eqb method "random-forest" then ret RandomForestClassifier
  else if String.eqb method "nearest-centroid" then ret NearestCentroid
  else if String.eqb method "knn" then ret KNeighborsClassifier
  else if String.eqb method "bagging" then ret BaggingClassifier
  else raise NotImplementedError.

(** The fixed enumeration of method names. *)
Definition supported_methods : list string :=
  ["logistic"; "svm"; "mirowski-svm"; "sgd"; "random-forest";
   "nearest-centroid"; "knn"; "bagging"].

Definition dict_of (kvs : list (string * value)) : pydict := list_to_map kvs.

Section GetModel.

(** The training data as [get_model] sees it: it only hands the feature
    matrix and the labels to [sklearn.svm.l1_min_c]. *)
Context {features labels : Type}.

(** [sklearn.svm.l1_min_c(X, y, loss='log')], a library call: it returns
    the smallest useful [C], or raises when the data is ill-posed. *)
Variable l1_min_c : features -> labels -> result Q.

Definition bagging_base (random_state : option Z) : value :=
  VEst SVC [("probability", VBool false); ("class_weight", VStr "auto");
            ("cache_size", VInt 1000); ("kernel", VStr "rbf");
            ("C", VInt 500); ("random_state", opt_int random_state)].

(** [get_model]. The store is threaded through: the result is the raised
    exception or the returned dict, together with the store afterwards. *)
Definition get_model (method : string)
    (training_data_x : features) (training_data_y : labels)
    (model_params : option loc) (random_state : option Z)
    (h : store) : result model_dict * store :=
  match l1_min_c training_data_x training_data_y with
  | inl e => (raise e, h)
  | inr min_c =>
    let finish (clf : value) (default_grid : grid) (h' : store) :=
      (* Model params overrides the default param_grid *)
      let param_grid :=
        match model_params with
        | Some l => GridRef l
        | None => default_grid
        end in
      (ret (mk_model_dict clf param_grid), h') in
    if String.eqb method "logistic" then
      finish
        (VEst LogisticRegression
              [("C", VInt 1); ("random_state", opt_int random_state)])
        (GridDict (dict_of
           [("C", floats (linspace min_c 100000 10));
            ("penalty", strs ["l1"; "l2"]);
            ("random_state", VList [opt_int random_state])]))
        h
    else if String.eqb method "svm" then
      finish
        (VEst SVC [("probability", VBool true); ("class_weight", VStr "auto");
                   ("cache_size", VInt 1000)])
        (GridList [dict_of
           [("kernel", strs ["rbf"]);
            ("gamma", VList [VInt 0; VFloat (1 # 10); VFloat (1 # 1000)]);
            ("C", floats (linspace min_c 1000 3))]])
        h
    else if String.eqb method "mirowski-svm" then
      finish
        (VEst SVC [("probability", VBool true); ("class_weight", VStr "auto")])
        (GridList [dict_of
           [("kernel", strs ["rbf"]);
            ("C", floats (map (Qmult 64) (linspace (1 # 4) 4 4)));
            ("gamma", floats (map (Qmult (1 # 8192)) (linspace (1 # 4) 4 4)))]])
        h
    else if String.eqb method "sgd" then
      finish
        (VEst SGDClassifier [])
        (GridList [dict_of
           [("loss", strs ["hinge"; "log"]);
            ("penalty", strs ["l1"; "l2"; "elasticnet"]);
            ("alpha", floats [1 # 10000; 1 # 1000; 1 # 100; 1 # 10])]])
        h
    else if String.eqb method "random-forest" then
      finish
        (VEst RandomForestClassifier [])
        (GridList [dict_of
           [("max_features", strs ["sqrt"; "log2"]);
            ("n_estimators", ints [10; 100; 1000]%Z);
            ("criterion", strs ["gini"; "entropy"])]])
        h
    else if String.eqb method "nearest-centroid" then
      finish
        (VEst NearestCentroid [])
        (GridList [dict_of [("shrink_threshold", VNone)];
                   dict_of [("shrink_threshold", floats (linspace 0 2 10))]])
        h
    else if String.eqb method "knn" then
      finish
        (VEst KNeighborsClassifier [])
        (GridList [dict_of
           [("algorithm", strs ["ball_tree"; "kd_tree"; "brute"]);
            ("n_neighbors", ints (range 1 5))]])
        h
    else if String.eqb method "bagging" then
      let base := bagging_base random_state in
      let h' :=
        match model_params with
        | Some l =>
          let h1 := setitem l "base_estimator" base h in
          if contains l "max_samples" h1 then h1
          else setitem l "max_samples" (VFloat (1 # 2)) h1
        | None => h
        end in
      finish
        (VEst BaggingClassifier [("base_estimator", base)])
        (GridList [dict_of
           [("n_estimators", ints [10; 20]%Z);
            ("bootstrap_features", VList [VBool true; VBool false])]])
        h'
    else (raise NotImplementedError, h)
  end.

End GetModel.

Section Driver.

Variable l1_min_c : matrix -> list Z -> result Q.

(** [sklearn.cross_validation.StratifiedKFold(y, n_folds, random_state)]:
    the test masks of its folds, or the error its constructor raises. *)
Variable StratifiedKFold : list Z -> nat -> option Z -> result (list (list bool)).
Variable ParameterGrid : list pydict -> list pydict.
Variable fit : value -> pydict -> matrix -> list Z -> result fitted.

Definition get_cv_generator (training_data : dataframe)
    (do_segment_split : bool) (random_state : option Z)
    : result (list fold) :=
  let n_folds := 10 in
  if do_segment_split then
    Dataset.SegmentCrossValidator training_data StratifiedKFold
                                  n_folds random_state
  else
    test_masks <- StratifiedKFold (map Preictal training_data)
                                  n_folds random_state ;;
    ret (partition_iterator test_masks).

(** The dicts a grid stands for once the store is known. *)
Definition grid_dicts (g : grid) (h : store) : list pydict :=
  match g with
  | GridDict d => [d]
  | GridList ds => ds
  | GridRef l =>
    match h !! l with
    | Some d => [d]
    | None => []
    end
  end.

Definition select_model (training_data : dataframe) (method : string)
    (do_segment_split : bool) (model_params : option loc)
    (random_state : option Z) (h : store) : result grid_search * store :=
  let training_data_x := map feats training_data in
  let training_data_y := map Preictal training_data in
  match get_cv_generator training_data do_segment_split random_state with
  | inl e => (raise e, h)
  | inr cv =>
    let scorer := make_scorer roc_auc_score "weighted" in
    match get_model l1_min_c method training_data_x training_data_y
                    model_params random_state h with
    | (inl e, h') => (raise e, h')
    | (inr model_dict, h') =>
      (GridSearchCV_fit ParameterGrid fit
         (estimator model_dict) (grid_dicts (param_grid model_dict) h')
         cv scorer training_data_x training_data_y,
       h')
    end
  end.

End Driver.

(** [clf] is a fitted estimator or a fitted grid search. *)
Inductive classifier : Type :=
| Estimator (e : fitted)
| GridSearchCV (g : grid_search).

(** The estimator that answers [clf.predict] and [clf.predict_proba]: a
    grid search hands both to its [best_estimator_]. *)
Definition delegate (clf : classifier) : fitted :=
  match clf with
  | Estimator e => e
  | GridSearchCV g => best_estimator_ g
  end.

(** What [predict] returns: a vector of probabilities or of labels. *)
Inductive predictions : Type :=
| Probabilities (p : list Q)
| Labels (l : list Z).

(** [list(classes).index(x)] *)
Definition index_of (x : Z) (classes : list Z) : result nat :=
  match list_find (fun c => c = x) classes with
  | Some (i, _) => ret i
  | None => raise ValueError
  end.

(** [m[:, i]] *)
Definition column (i : nat) (m : matrix) : result (list Q) :=
  mapM (fun r => match r !! i with
                 | Some x => ret x
                 | None => raise IndexError
                 end) m.

Definition predict (clf : classifier) (test_data : matrix)
    (probabilities : bool) : result predictions :=
  match (if probabilities then est_predict_proba (delegate clf) else None) with
  | Some predict_proba =>
    let predictions := predict_proba test_data in
    let classes :=
      match clf with
      | GridSearchCV g => classes_ (best_estimator_ g)
      | Estimator e => classes_ e
      end in
    class_index <- index_of 1 classes ;;
    p <- column class_index predictions ;;
    ret (Probabilities p)
  | None => ret (Labels (est_predict (delegate clf) test_data))
  end.

End Modeling.

(* ===================================================================== *)
(** ** [wavelet_classification.py] *)
(* ===================================================================== *)

Module Wavelet.

Section Splitting.
Context {PyG NpG : Type} `{Generators PyG NpG}.

Definition print (p : printed) (w : world PyG NpG) : world PyG NpG :=
  mk_world (py_random w) (np_random w) (console w ++ [p]).

Definition set_np (g : NpG) (w : world PyG NpG) : world PyG NpG :=
  mk_world (py_random w) g (console w).

(** The block
    [if seed is None: seed = int(random.randrange(0, 4294967295));
                      np.random.seed(seed)]
    shared by [random_split] and [split_experiment_data]. It returns the
    seed in force afterwards. *)
Definition ensure_seed (seed : option Z) (w : world PyG NpG)
    : Z * world PyG NpG :=
  match seed with
  | None =>
    let '(s, py') := randrange 0 4294967295 (py_random w) in
    (s, mk_world py' (np_seed s) (console w))
  | Some s => (s, w)
  end.

Definition random_split (df : dataframe)
    (ratio : option Q) (desired_rows : option Q) (seed : option Z)
    (w : world PyG NpG) : result (dataframe * dataframe) * world PyG NpG :=
  match ratio, desired_rows with
  | None, None => (raise AssertionError, w)
  | Some r, _ =>
    let '(_, w1) := ensure_seed seed w in
    let '(us, g') := np_rand (length df) (np_random w1) in
    let msk := map (fun u => Qltb u r) us in
    (ret (boolean_index df msk, boolean_index df (map negb msk)),
     set_np g' w1)
  | None, Some size =>
    let '(_, w1) := ensure_seed seed w in
    match np_random_choice (map index df) size (np_random w1) with
    | (inl e, g') => (raise e, set_np g' w1)
    | (inr rows, g') => (ret (ix df rows, drop_rows df rows), set_np g' w1)
    end
  end.

Definition split_experiment_data (train_interictal train_preictal : dataframe)
    (training_ratio : Q) (do_downsample : bool) (downsample_ratio : Q)
    (seed : option Z) (w : world PyG NpG)
    : result (dataframe * dataframe) * world PyG NpG :=
  let interictal_samples := length train_interictal in
  let preictal_samples := length train_preictal in
  let w :=
    if (interictal_samples <? preictal_samples)%nat
    then print (WarningCounts preictal_samples interictal_samples) w
    else w in
  if do_downsample then
    let desired_interictal :=
      double_mul downsample_ratio (double_of_Z (Z.of_nat preictal_samples)) in
    let '(seed', w) := ensure_seed seed w in
    match random_split train_interictal None (Some desired_interictal)
                       (Some seed') w with
    | (inl e, w) => (raise e, w)
    | (inr (downsampled_interictal, _), w) =>
      let downsampled_complete := downsampled_interictal ++ train_preictal in
      let w := print (OriginalInterictal interictal_samples) w in
      let w := print (OriginalPreictal preictal_samples) w in
      let w := print (AfterDownsampling (length downsampled_interictal)) w in
      random_split downsampled_complete (Some training_ratio) None
                   (Some seed') w
    end
  else
    let complete := train_interictal ++ train_preictal in
    let w := print (OriginalInterictal interictal_samples) w in
    let w := print (OriginalPreictal preictal_samples) w in
    let w := print (CombinedSamples (length complete)) w in
    random_split complete (Some training_ratio) None seed w.

End Splitting.

Definition create_model (method : string) : result value :=
  if String.eqb method "svm" then
    ret (VEst SVC [("probability", VBool true); ("class_weight", VStr "auto")])
  else if String.eqb method "sgd" then ret (VEst SGDClassifier [])
  else if String.eqb method "random-forest" then
    ret (VEst RandomForestClassifier [])
  else raise NotImplementedError.


Definition parameters_for_method (method : string) : option (list pydict) :=
  if String.eqb method "svm" then
    Some [Modeling.dict_of
            [("kernel", strs ["rbf"]);
             ("gamma", VList [VInt 0; VFloat (1 # 10); VFloat (1 # 100);
                              VFloat (1 # 1000)]);
             ("C", ints [10; 100; 1000]%Z)]]
  else if String.eqb method "sgd" then
    Some [Modeling.dict_of
            [("loss", strs ["hinge"; "log"]);
             ("penalty", strs ["l1"; "l2"; "elasticnet"]);
             ("alpha", floats [1 # 10000; 1 # 1000; 1 # 100; 1 # 10])]]
  else None.

Section ModelSearch.
Context {PyG NpG : Type} `{Generators PyG NpG}.

Variable StratifiedKFold : list Z -> nat -> option Z -> result (list (list bool)).
Variable ParameterGrid : list pydict -> list pydict.
Variable fit : value -> pydict -> matrix -> list Z -> result fitted.

(** [train_test_split(X, y, test_size=.., random_state=..)] *)
Variable train_test_split :
  matrix -> list Z -> Q -> option Z -> matrix * matrix * list Z * list Z.

(** The scorers of [find_best_model] when the caller passes none. *)
Definition default_scores (scores : option (list scorer)) : list scorer :=
  match scores with
  | None => [make_scorer roc_auc_score "weighted"]
  | Some l => l
  end.

(** The loop [for score in scores: clf = GridSearchCV(..); clf.fit(..)];
    [clf] is the search of the last scorer. *)
Fixpoint search_each (model : value) (tuned_parameters : option (list pydict))
    (cv : list fold) (X_train : matrix) (y_train : list Z)
    (scores : list scorer) (clf : option grid_search)
    : result (option grid_search) :=
  match scores with
  | [] => ret clf
  | score :: scores' =>
    match tuned_parameters with
    | None => raise TypeError
    | Some g =>
      c <- GridSearchCV_fit ParameterGrid fit model g cv score X_train y_train ;;
      search_each model tuned_parameters cv X_train y_train scores' (Some c)
    end
  end.

(** [find_best_model] from the loaded class tables on, up to the search
    it returns. Reading the feature files, the report printed after each
    search and the pickling are input and output: the whole function, with
    them, is [find_best_model_in] below. *)
Definition find_best_model (interictal preictal : dataframe)
    (training_ratio : Q) (scores : option (list scorer))
    (do_downsample : bool) (method : string) (seed : option Z)
    (w : world PyG NpG) : result grid_search * world PyG NpG :=
  match split_experiment_data interictal preictal 1 do_downsample 1 seed w with
  | (inl e, w') => (raise e, w')
  | (inr (complete_data, _), w') =>
    (model <- create_model method ;;
     let tuned_parameters := parameters_for_method method in
     let y := map Preictal complete_data in
     let X := map feats complete_data in
     let '(X_train, X_test, y_train, y_test) :=
       train_test_split X y training_ratio seed in
     test_masks <- StratifiedKFold y_train 10 None ;;
     let cv := partition_iterator test_masks in
     clf <- search_each model tuned_parameters cv X_train y_train
                        (default_scores scores) None ;;
     match clf with
     | Some c => ret c
     | None => raise UnboundLocalError
     end,
     w')
  end.

End ModelSearch.

End Wavelet.

(* ===================================================================== *)
(** ** A small instance of the generators

    For running the definitions on concrete inputs: the state of each
    generator is the list of values it hands out next (0 once the list is
    used up). It stands in for the generators of the libraries. *)
(* ===================================================================== *)

Module ListGen.

Definition next_int (lo hi : Z) (g : list Z) : Z * list Z :=
  match g with
  | [] => (lo, [])
  | z :: g' => (z, g')
  end.

Definition next_uniform (g : list Q) : Q * list Q :=
  match g with
  | [] => (0%Q, [])
  | u :: g' => (u, g')
  end.

(** The draws a seed determines: a short congruential sequence. *)
Definition seeded (s : Z) : list Q :=
  let x1 := ((5 * s + 3) mod 16)%Z in
  let x2 := ((5 * x1 + 3) mod 16)%Z in
  let x3 := ((5 * x2 + 3) mod 16)%Z in
  let x4 := ((5 * x3 + 3) mod 16)%Z in
  [x1 # 16; x2 # 16; x3 # 16; x4 # 16]%Q.

(** [size] positions out of [pop]: the first ones or the last ones,
    depending on the next draw. *)
Definition sample (pop size : nat) (g : list Q) : list nat * list Q :=
  let '(u, g') := next_uniform g in
  if Qltb u (1 # 2) then (seq 0 size, g') else (seq (pop - size) size, g').

#[global] Instance generators : Generators (list Z) (list Q).
Proof.
  refine {| randrange := next_int;
            np_seed := seeded;
            np_uniform := next_uniform;
            np_sample := sample |}.
  intros pop size g Hle. unfold sample.
  destruct (next_uniform g) as [u g'].
  destruct (Qltb u (1 # 2)); simpl;
    (split; [apply NoDup_seq | split; [apply length_seq |]]);
    apply Forall_forall; intros i Hi; apply elem_of_seq in Hi; lia.
Defined.

End ListGen.

(** A K-fold that deals the samples out to the folds in turn; like the
    library's constructor it refuses more folds than samples. It stands in
    for [StratifiedKFold] when a definition is run. *)
Module RoundRobin.

Definition kfold (y : list Z) (n_folds : nat) (random_state : option Z)
    : result (list (list bool)) :=
  if (length y <? n_folds)%nat then raise ValueError
  else
    ret (map (fun k => map (fun i => (i mod n_folds =? k)%nat)
                           (seq 0 (length y)))
             (seq 0 n_folds)).

End RoundRobin.

(* ===================================================================== *)
(** ** Definitions used to state the properties *)
(* ===================================================================== *)

Section Drawn.
Context {PyG NpG : Type} `{Generators PyG NpG}.

(** The mask [np.random.rand(len(dataframe)) < ratio] that a call draws,
    read off the state of [np.random] the call starts from. *)
Definition drawn_mask (df : dataframe) (r : Q) (seed : option Z) w
    : list bool :=
  map (fun u => Qltb u r)
      (np_rand (length df) (np_random (Wavelet.ensure_seed seed w).2)).1.

End Drawn.

(** The scoring the specification words: the area under the ROC curve of
    the class-1 probabilities when the estimator has [predict_proba], of
    the hard labels otherwise. *)
Definition score_as_specified : scorer :=
  fun est X y_true =>
    p <- Modeling.predict (Modeling.Estimator est) X true ;;
    match p with
    | Modeling.Probabilities q => roc_auc_score y_true q "weighted"
    | Modeling.Labels l => roc_auc_score y_true (map inject_Z l) "weighted"
    end.

Section HardLabels.
Variable fit : value -> pydict -> matrix -> list Z -> result fitted.

(** The score of one configuration on one fold, as the weighted AUC of
    the hard labels that the estimator fitted on the train side predicts
    for the test side. *)
Definition hard_label_auc (est : value) (X : matrix) (y : list Z)
    (params : pydict) (f : fold) (s : Q) : Prop :=
  exists e,
    fit est params (iloc X f.1) (iloc y f.1) = ret e /\
    roc_auc_score (iloc y f.2) (map inject_Z (est_predict e (iloc X f.2)))
                  "weighted" = ret s.

End HardLabels.

(** What the bagging branch leaves in the caller's dict. *)
Definition bagging_params (random_state : option Z) (d : pydict) : pydict :=
  let d1 := <["base_estimator" := Modeling.bagging_base random_state]> d in
  if decide (is_Some (d !! "max_samples")) then d1
  else <["max_samples" := VFloat (1 # 2)]> d1.

(** Concrete tables and estimators for running the definitions. *)

Module Tables.

Definition r (s : string) (f : nat) (x : Q) (l : Z) : row := mk_row s f [x] l.

(** Two rows of one recording segment. *)
Definition one_segment : dataframe :=
  [r "interictal_segment_0001" 0 (1 # 10) 0; r "interictal_segment_0001" 1 (2 # 10) 0].

Definition no_rows : dataframe := [].

(** Four interictal rows and two preictal rows. *)
Definition interictal4 : dataframe :=
  [r "interictal_segment_0001" 0 (1 # 10) 0; r "interictal_segment_0001" 1 (2 # 10) 0;
   r "interictal_segment_0002" 0 (3 # 10) 0; r "interictal_segment_0002" 1 (4 # 10) 0].

Definition preictal2 : dataframe :=
  [r "preictal_segment_0001" 0 (8 # 10) 1; r "preictal_segment_0001" 1 (9 # 10) 1].

(** Three segments of two rows each. *)
Definition three_segments : dataframe :=
  interictal4 ++ preictal2.

(** [n] rows of one class, two rows to a segment. *)
Definition class_rows (class_name : string) (l : Z) (n : nat) : dataframe :=
  map (fun i => r (String.append class_name (pretty (i / 2)%nat)) (i mod 2)
                  (Z.of_nat i # 128) l)
      (seq 0 n).


Definition seg_name (i : nat) : string :=
  String (Ascii.ascii_of_nat (65 + i)) EmptyString.

(** Twenty segments of one row each: ten interictal ones with feature 1/4,
    then ten preictal ones with feature 3/4. *)
Definition twenty_segments : dataframe :=
  map (fun i => if (i <? 10)%nat then r (seg_name i) 0 (1 # 4) 0
                else r (seg_name i) 0 (3 # 4) 1)
      (seq 0 20).

(** A fitted estimator that predicts label 0 for every row and reports the
    first feature as the probability of class 1. *)
Definition cautious : fitted :=
  mk_fitted [0; 1]%Z
            (fun X => map (fun _ => 0%Z) X)
            (Some (fun X => map (fun x => match x with
                                          | p :: _ => [1 - p; p]%Q
                                          | [] => [1; 0]%Q
                                          end) X)).

Definition fit (est : value) (params : pydict) (X : matrix) (y : list Z)
    : result fitted := ret cautious.

Definition l1_min_c (X : matrix) (y : list Z) : result Q := ret 1%Q.

(** Every dict of the grid taken as one configuration. *)
Definition ParameterGrid (ds : list pydict) : list pydict := ds.

Definition train_test_split (X : matrix) (y : list Z) (test_size : Q)
    (random_state : option Z) : matrix * matrix * list Z * list Z :=
  (X, [], y, []).

(** The next draws of [np.random] are 1/4, 3/4, 3/4, 1/4. *)
Definition ambient : world (list Z) (list Q) :=
  mk_world [] [1 # 4; 3 # 4; 3 # 4; 1 # 4]%Q [].

End Tables.

(** The same probabilities under the two class orderings. *)
Definition proba_one_first (X : matrix) : matrix :=
  map (fun _ => [7 # 10; 3 # 10]%Q) X.

Definition proba_one_last (X : matrix) : matrix :=
  map (fun _ => [3 # 10; 7 # 10]%Q) X.

Definition one_first : fitted :=
  mk_fitted [1; 0]%Z (fun X => map (fun _ => 1%Z) X) (Some proba_one_first).

Definition one_last : fitted :=
  mk_fitted [0; 1]%Z (fun X => map (fun _ => 1%Z) X) (Some proba_one_last).

(** A caller's override for the bagging ensemble. *)
Definition override_store : store :=
  {[ 1%positive := {[ "n_estimators" := VList [VInt 5] ]} ]}.

(* ===================================================================== *)
(** ** [assign_segment_scores] ([seizure_modeling.py]) *)
(* ===================================================================== *)

Module Scores.



Section GroupBy.

(** The mean pandas takes of the values of one group, in row order: a
    float64 computation inside the library. *)
Variable column_mean : list Q -> Q.



End GroupBy.

End Scores.

(* ===================================================================== *)
(** ** [run_classification] ([wavelet_classification.py])

    Reading the feature files, the clock, pickling and writing the scores
    are input and output: each is a parameter acting on the state of the
    file system. *)
(* ===================================================================== *)

Section Run.
Context {PyG NpG : Type} `{Generators PyG NpG}.
Variable FS : Type.
Variable scores_table : Type.

(** [load_data_frames(feature_folder, rebuild_data, processes)]: the
    interictal, preictal and unlabeled tables. *)
Variable load_data_frames :
  string -> bool -> nat -> FS -> result (dataframe * dataframe * dataframe) * FS.
(** [strftime("%m-%d-%Y-%H.%M.%S", localtime())] *)
Variable timestamp : FS -> string.
Variable os_path_join : string -> string -> string.
(** [with open(file, 'wb') as fp: pickle.dump(obj, fp)] *)
Variable dump_estimator : string -> value -> FS -> result unit * FS.
Variable dump_search : string -> grid_search -> FS -> result unit * FS.
(** [classification_pipeline.write_scores] *)
Variable write_scores :
  string -> dataframe -> grid_search -> string -> FS -> result scores_table * FS.

Variable StratifiedKFold : list Z -> nat -> option Z -> result (list (list bool)).
Variable ParameterGrid : list pydict -> list pydict.
Variable fit : value -> pydict -> matrix -> list Z -> result fitted.
(** [train_test_split(X, y, test_size=.., random_state=..)]; the library
    refuses some sizes. *)
Variable train_test_split :
  matrix -> list Z -> Q -> option Z
  -> result (matrix * matrix * list Z * list Z).
(** What [find_best_model] prints after a search: the scores of the grid,
    then [classification_report] and the confusion matrix of
    [clf.predict(X_test)] against [y_test]. These are library calls on the
    held-out rows; what matters here is whether they raise. *)
Variable report : grid_search -> matrix -> list Z -> result unit.

Definition model_basename (method stamp : string) : string :=
  "model_" ++ method ++ "_" ++ stamp ++ ".pickle".

(** The loop of [find_best_model] over the scorers: a grid search and its
    report for each, [clf] being the search of the last one. *)
Fixpoint search_and_report_each (model : value)
    (tuned_parameters : option (list pydict)) (cv : list fold)
    (X_train : matrix) (y_train : list Z) (X_test : matrix) (y_test : list Z)
    (scores : list scorer) (clf : option grid_search)
    : result (option grid_search) :=
  match scores with
  | [] => ret clf
  | score :: scores' =>
    match tuned_parameters with
    | None => raise TypeError
    | Some g =>
      c <- GridSearchCV_fit ParameterGrid fit model g cv score X_train y_train ;;
      _ <- report c X_test y_test ;;
      search_and_report_each model tuned_parameters cv X_train y_train
                             X_test y_test scores' (Some c)
    end
  end.

(** [find_best_model], the whole function: it reads the feature files,
    splits, searches, pickles the unfitted [model] (only a [TypeError] of
    the pickling is caught) and then returns [clf], which is unbound when
    the loop ran over no scorer. *)
Definition find_best_model_in (feature_folder : string) (rebuild_data : bool)
    (training_ratio : Q) (scores : option (list scorer))
    (do_downsample : bool) (method : string) (seed : option Z)
    (w : world PyG NpG) (fs : FS) : result grid_search * world PyG NpG * FS :=
  match load_data_frames feature_folder rebuild_data 4 fs with
  | (inl e, fs1) => (raise e, w, fs1)
  | (inr (interictal, preictal, _), fs1) =>
    match Wavelet.split_experiment_data interictal preictal 1 do_downsample 1
                                        seed w with
    | (inl e, w1) => (raise e, w1, fs1)
    | (inr (complete_data, _), w1) =>
      let searched :=
        model <- Wavelet.create_model method ;;
        let tuned_parameters := Wavelet.parameters_for_method method in
        let y := map Preictal complete_data in
        let X := map feats complete_data in
        parts <- train_test_split X y training_ratio seed ;;
        let '(X_train, X_test, y_train, y_test) := parts in
        test_masks <- StratifiedKFold y_train 10 None ;;
        let cv := partition_iterator test_masks in
        clf <- search_and_report_each model tuned_parameters cv
                 X_train y_train X_test y_test
                 (Wavelet.default_scores scores) None ;;
        ret (model, clf) in
      match searched with
      | inl e => (raise e, w1, fs1)
      | inr (model, clf) =>
        let model_file :=
          os_path_join feature_folder
                       (model_basename method (timestamp fs1)) in
        let return_clf (fs2 : FS) :=
          match clf with
          | Some c => (ret c, w1, fs2)
          | None => (raise UnboundLocalError, w1, fs2)
          end in
        match dump_estimator model_file model fs1 with
        | (inl TypeError, fs2) => return_clf fs2
        | (inl e, fs2) => (raise e, w1, fs2)
        | (inr _, fs2) => return_clf fs2
        end
      end
    end
  end.

Definition run_classification (feature_folder : string) (rebuild_data : bool)
    (training_ratio : Q) (rebuild_model : bool) (model_file : option string)
    (do_downsample : bool) (method : string) (do_segment_split : bool)
    (processes : nat) (seed : option Z)
    (w : world PyG NpG) (fs : FS)
    : result scores_table * world PyG NpG * FS :=
  match load_data_frames feature_folder rebuild_data processes fs with
  | (inl e, fs1) => (raise e, w, fs1)
  | (inr (interictal, preictal, unlabeled), fs1) =>
    let stamp := timestamp fs1 in
    let finish (model : option grid_search) (w' : world PyG NpG) (fs' : FS) :=
      match model with
      | None => (raise UnboundLocalError, w', fs')
      | Some m =>
        let '(scores, fs'') :=
          write_scores feature_folder unlabeled m stamp fs' in
        (scores, w', fs'')
      end in
    if rebuild_model then
      match find_best_model_in feature_folder false (4 # 5) None true
                               method seed w fs1 with
      | (inl e, w1, fs2) => (raise e, w1, fs2)
      | (inr model, w1, fs2) =>
        let model_file :=
          match model_file with
          | None => os_path_join feature_folder (model_basename method stamp)
          | Some f => f
          end in
        match dump_search model_file model fs2 with
        | (inl e, fs3) => (raise e, w1, fs3)
        | (inr _, fs3) => finish (Some model) w1 fs3
        end
      end
    else finish None w fs1
  end.

End Run.

(* ===================================================================== *)
(** ** [extract_features_for_segment] ([wavelets.py])

    The segment enters through what the function reads of it: its
    duration, its number of channels, and the synchrony arrays that
    [segment_wavelet_synchrony] returned for it, band by band in the
    iteration order of the dict. The module has no true division: [/] on
    two integers is floor division. *)
(* ===================================================================== *)

Module Features.

(** The exceptions the function itself can raise. *)
Inductive raised : Type :=
| ZeroDivisionError
| XrangeStepZero.

(** [xrange(start, stop, step)]; a step of 0 is a [ValueError]. *)
Definition xrange (start stop step : Z) : raised + list Z :=
  if (step =? 0)%Z then inl XrangeStepZero
  else if (0 <? step)%Z then
    inr (map (fun k : nat => (start + Z.of_nat k * step)%Z)
             (seq 0 (Z.to_nat ((stop - start + step - 1) / step))))
  else
    inr (map (fun k : nat => (start + Z.of_nat k * step)%Z)
             (seq 0 (Z.to_nat ((start - stop - step - 1) / (- step))))).

(** [l[k]] on a Python list: a negative index counts from the end;
    [None] is an [IndexError]. *)
Definition py_index {A} (l : list A) (k : Z) : option A :=
  if (0 <=? k)%Z then l !! Z.to_nat k
  else if (0 <=? Z.of_nat (length l) + k)%Z
       then l !! Z.to_nat (Z.of_nat (length l) + k)
       else None.

(** [np.triu_indices(n, 1)]: the index pairs above the diagonal, row by
    row. *)
Definition triu_indices (n : nat) : list (nat * nat) :=
  flat_map (fun i => map (fun j => (i, j)) (seq (S i) (n - S i))) (seq 0 n).

(** [sync_array[rows, cols].tolist()]; [None] is an [IndexError]. *)
Fixpoint take_entries (m : matrix) (ijs : list (nat * nat))
    : option (list Q) :=
  match ijs with
  | [] => Some []
  | (i, j) :: rest =>
    match m !! i with
    | None => None
    | Some r =>
      match r !! j with
      | None => None
      | Some x =>
        match take_entries m rest with
        | None => None
        | Some xs => Some (x :: xs)
        end
      end
    end
  end.

(** The body of the [try]: the values of one window, [None] when an
    [IndexError] is raised. *)
Definition window_values (n_channels : nat) (array_list : list matrix)
    (k : Z) : option (list Q) :=
  match py_index array_list k with
  | None => None
  | Some sync_array => take_entries sync_array (triu_indices n_channels)
  end.

(** One feature: over the bands and the frames, the values of the
    windows that exist; [except IndexError: pass] skips the others. *)
Definition feature (n_channels : nat) (decomposition_dict : list (list matrix))
    (frames offset : Z) : list Q :=
  flat_map (fun array_list =>
              flat_map (fun i => match window_values n_channels array_list
                                         (i + offset) with
                                 | Some sync_values => sync_values
                                 | None => []
                                 end)
                       (match xrange 0 frames 1 with
                        | inr l => l
                        | inl _ => []
                        end))
           decomposition_dict.

(** The result: the features by index, and the warning printed when
    their number is not the expected one (expected, got). *)
Definition extract_features_for_segment (duration : Q) (n_channels : nat)
    (decomposition_dict : list (list matrix))
    (feature_length_seconds window_size : Z)
    : raised + (list (list Q) * option (Z * nat)) :=
  if (window_size =? 0)%Z then inl ZeroDivisionError
  else
    let frames := (feature_length_seconds / window_size)%Z in
    let total_windows := int_of_float (duration / inject_Z window_size) in
    if (feature_length_seconds =? 0)%Z then inl ZeroDivisionError
    else
      let iters :=
        int_of_float (duration / inject_Z feature_length_seconds) in
      match xrange 0 total_windows frames with
      | inl e => inl e
      | inr offsets =>
        let feature_dict :=
          map (feature n_channels decomposition_dict frames) offsets in
        inr (feature_dict,
             if (Z.of_nat (length feature_dict) =? iters)%Z then None
             else Some (iters, length feature_dict))
      end.

End Features.

(* ===================================================================== *)
(** ** [cm_report] ([seizure_modeling.py]) *)
(* ===================================================================== *)

Module Report.

Fixpoint spaces (n : nat) : string :=
  match n with
  | O => EmptyString
  | S n' => String Ascii.Space (spaces n')
  end.

(** ["{:>w}".format(s)]: [s] right-justified in a field of width [w]. *)
Definition rjust (w : nat) (s : string) : string :=
  String.append (spaces (w - String.length s)) s.

(** ["{:<w}".format(s)]: [s] left-justified in a field of width [w]. *)
Definition ljust (w : nat) (s : string) : string :=
  String.append s (spaces (w - String.length s)).

(** [max([len(x) for x in labels])]; [max] of an empty list is a
    [ValueError]. *)
Definition columnwidth_of (labels : list string) : result nat :=
  match labels with
  | [] => raise ValueError
  | _ => ret (fold_right Nat.max 0 (map String.length labels))
  end.

(** [cm[i, j]] on a two-dimensional array. *)
Definition entry (cm : list (list Z)) (i j : nat) : result Z :=
  match cm !! i with
  | None => raise IndexError
  | Some row =>
    match row !! j with
    | None => raise IndexError
    | Some x => ret x
    end
  end.

(** [sep.join(cells)] *)
Fixpoint join (sep : string) (cells : list string) : string :=
  match cells with
  | [] => EmptyString
  | [c] => c
  | c :: rest => String.append c (String.append sep (join sep rest))
  end.

(** The cells of the table [cm_report] lays out: the header row, then
    one row per label, each before it is joined with [sep]. *)
Definition cm_cells (cm : list (list Z)) (labels : list string)
    : result (list (list string)) :=
  columnwidth <- columnwidth_of labels ;;
  let header_cells := map (rjust columnwidth) (EmptyString :: labels) in
  rows <- mapM (fun il : nat * string =>
                  cells <- mapM (fun j => x <- entry cm il.1 j ;;
                                         ret (rjust columnwidth (pretty x)))
                                (seq 0 (length labels)) ;;
                  ret (ljust columnwidth il.2 :: cells))
               (imap pair labels) ;;
  ret (header_cells :: rows).

Definition cm_report (cm : list (list Z)) (labels : list string)
    (sep : string) : result string :=
  table <- cm_cells cm labels ;;
  ret (join (String (Ascii.ascii_of_nat 10) EmptyString)
            ("Colums show what the true values(rows) were classified as."
             :: map (join sep) table)).

End Report.

(* ===================================================================== *)
(** * Properties *)
(* ===================================================================== *)

(** ** Masks and positional selection *)

Section Selection.
Context {A : Type}.
Implicit Types (a : list A) (msk : list bool) (idx : list nat).

Lemma elem_of_mask_positions_from i0 msk i :
  i ∈ mask_positions_from i0 msk <-> i0 <= i /\ msk !! (i - i0) = Some true.
Proof.
  revert i0. induction msk as [|b msk IH]; intros i0; simpl.
  - split; [intros Hin; inversion Hin | intros [_ Hl]; discriminate].
  - assert (Htail : i ∈ mask_positions_from (S i0) msk <->
                    i0 <= i /\ (b :: msk) !! (i - i0) = Some true /\ i <> i0).
    { rewrite IH. split.
      - intros [Hle Hl]. replace (i - i0) with (S (i - S i0)) by lia.
        simpl. repeat split; [lia | done | lia].
      - intros (Hle & Hl & Hne).
        replace (i - i0) with (S (i - S i0)) in Hl by lia.
        simpl in Hl. split; [lia | done]. }
    destruct b.
    + rewrite elem_of_cons, Htail. split.
      * intros [-> | (Hle & Hl & _)]; [|done].
        split; [lia|]. by rewrite Nat.sub_diag.
      * intros [Hle Hl]. destruct (decide (i = i0)); [by left | by right].
    + rewrite Htail. split; [by intros (Hle & Hl & _)|].
      intros [Hle Hl]. repeat split; [done..|].
      intros ->. rewrite Nat.sub_diag in Hl. discriminate.
Qed.

Lemma elem_of_mask_positions msk i :
  i ∈ mask_positions msk <-> msk !! i = Some true.
Proof.
  unfold mask_positions. rewrite elem_of_mask_positions_from, Nat.sub_0_r.
  split; [by intros [_ Hl] | intros Hl; split; [lia | done]].
Qed.

Lemma NoDup_mask_positions_from i0 msk : NoDup (mask_positions_from i0 msk).
Proof.
  revert i0. induction msk as [|b msk IH]; intros i0; simpl.
  - constructor.
  - destruct b; [|apply IH]. constructor; [|apply IH].
    rewrite elem_of_mask_positions_from. lia.
Qed.

Lemma NoDup_mask_positions msk : NoDup (mask_positions msk).
Proof. apply NoDup_mask_positions_from. Qed.

Lemma mask_positions_complement msk i :
  i ∈ mask_positions msk -> i ∉ mask_positions (map negb msk).
Proof.
  rewrite !elem_of_mask_positions, list_lookup_fmap.
  intros ->. simpl. discriminate.
Qed.

Lemma mask_positions_cover msk i :
  i < length msk <->
  i ∈ mask_positions msk \/ i ∈ mask_positions (map negb msk).
Proof.
  rewrite !elem_of_mask_positions, list_lookup_fmap. split.
  - intros Hlt. destruct (lookup_lt_is_Some_2 msk i Hlt) as [b Hb].
    rewrite Hb. destruct b; [by left | by right].
  - intros [Hl | Hl]; apply lookup_lt_is_Some.
    + by eexists.
    + destruct (msk !! i); [by eexists | discriminate].
Qed.

Lemma elem_of_iloc a idx x :
  x ∈ iloc a idx <-> exists i, i ∈ idx /\ a !! i = Some x.
Proof. unfold iloc. apply list_elem_of_omap. Qed.

Lemma elem_of_boolean_index a msk x :
  x ∈ boolean_index a msk <->
  exists i, msk !! i = Some true /\ a !! i = Some x.
Proof.
  unfold boolean_index. rewrite elem_of_iloc.
  by setoid_rewrite elem_of_mask_positions.
Qed.

(** A mask and its complement cut a table into two parts that together
    hold every row once. *)
Lemma mask_split_from (pre a : list A) msk :
  length msk = length a ->
  iloc (pre ++ a) (mask_positions_from (length pre) msk) ++
  iloc (pre ++ a) (mask_positions_from (length pre) (map negb msk)) ≡ₚ a.
Proof.
  revert pre a. induction msk as [|b msk IH]; intros pre a Hlen.
  - destruct a; [done | discriminate].
  - destruct a as [|x a]; [discriminate|]. simpl in Hlen.
    specialize (IH (pre ++ [x]) a ltac:(lia)).
    rewrite <- (assoc_L (++)), length_app in IH. simpl in IH.
    rewrite Nat.add_1_r in IH.
    assert (Hx : (pre ++ x :: a) !! length pre = Some x)
      by (by rewrite lookup_app_r, Nat.sub_diag by lia).
    destruct b; simpl; unfold iloc in *; simpl; rewrite Hx.
    + simpl. by rewrite IH.
    + rewrite <- Permutation_middle. by rewrite IH.
Qed.

Lemma boolean_index_split a msk :
  length msk = length a ->
  boolean_index a msk ++ boolean_index a (map negb msk) ≡ₚ a.
Proof. intros Hlen. apply (mask_split_from [] a msk Hlen). Qed.

End Selection.

(** ** The numpy calls *)

Section NumpyFacts.
Context {PyG NpG : Type} `{Generators PyG NpG}.

Lemma np_rand_length n (g : NpG) : length (np_rand n g).1 = n.
Proof.
  revert g. induction n as [|n IH]; intros g; simpl; [done|].
  destruct (np_uniform g) as [u g1]. specialize (IH g1).
  destruct (np_rand n g1) as [us g2]. simpl in *. by rewrite IH.
Qed.

End NumpyFacts.

(** ** [random_split] with a ratio *)

Section RatioSplit.
Context {PyG NpG : Type} `{Generators PyG NpG}.
Implicit Types (w : world PyG NpG) (df : dataframe).

Lemma drawn_mask_length df r seed w :
  length (drawn_mask df r seed w) = length df.
Proof. unfold drawn_mask. by rewrite length_map, np_rand_length. Qed.

Lemma random_split_ratio df r desired_rows seed w :
  exists w',
    Wavelet.random_split df (Some r) desired_rows seed w =
    (ret (boolean_index df (drawn_mask df r seed w),
          boolean_index df (map negb (drawn_mask df r seed w))), w').
Proof.
  unfold Wavelet.random_split, drawn_mask.
  destruct (Wavelet.ensure_seed seed w) as [s w1]. simpl.
  destruct (np_rand (length df) (np_random w1)) as [us g']. simpl.
  destruct desired_rows; by eexists.
Qed.

(** C9. A single split by ratio hands every row index of the table to
    exactly one side: the train indices and the test indices have no
    index in common, none occurs twice, and together they are the
    indices [0 .. len(D)-1]. *)
Theorem random_split_partitions_indices
    df (ratio : Q) desired_rows seed w :
  exists train_idx test_idx w',
    Wavelet.random_split df (Some ratio) desired_rows seed w =
      (ret (iloc df train_idx, iloc df test_idx), w') /\
    NoDup train_idx /\ NoDup test_idx /\
    (forall i, i ∈ train_idx -> i ∉ test_idx) /\
    (forall i, i < length df <-> i ∈ train_idx \/ i ∈ test_idx).
Proof.
  destruct (random_split_ratio df ratio desired_rows seed w) as [w' Hrun].
  exists (mask_positions (drawn_mask df ratio seed w)),
         (mask_positions (map negb (drawn_mask df ratio seed w))), w'.
  split; [exact Hrun|].
  split; [apply NoDup_mask_positions|].
  split; [apply NoDup_mask_positions|].
  split; [apply mask_positions_complement|].
  intros i. rewrite <- mask_positions_cover. by rewrite drawn_mask_length.
Qed.

(** The rows of the two sides are the rows of the table. *)
Lemma random_split_ratio_rows df r desired_rows seed w :
  exists train test w',
    Wavelet.random_split df (Some r) desired_rows seed w =
      (ret (train, test), w') /\
    train ++ test ≡ₚ df.
Proof.
  destruct (random_split_ratio df r desired_rows seed w) as [w' Hrun].
  eexists _, _, w'. split; [exact Hrun|].
  apply boolean_index_split, drawn_mask_length.
Qed.

(** A seed the caller supplies is not read: the call runs on the state
    [np.random] happens to be in. *)
Lemma random_split_supplied_seed_unused df ratio desired_rows (s s' : Z) w :
  Wavelet.random_split df ratio desired_rows (Some s) w =
  Wavelet.random_split df ratio desired_rows (Some s') w.
Proof. reflexivity. Qed.

End RatioSplit.

(** C3, the code at a failing input. [random_split] is called twice with
    the same table, the same ratio and the same supplied seed 42, the
    second call in the process state the first one left: the first call
    puts row 0 in train and row 1 in test, the second one the reverse.
    [split_experiment_data] with that seed does the same. *)
Lemma random_split_same_seed_differs :
  let call :=
    Wavelet.random_split Tables.one_segment (Some (1 # 2)) None (Some 42%Z) in
  let split :=
    Wavelet.split_experiment_data Tables.one_segment Tables.no_rows
                                  (1 # 2) false 1 (Some 42%Z) in
  (call Tables.ambient).1 =
    ret (iloc Tables.one_segment [0], iloc Tables.one_segment [1]) /\
  (call (call Tables.ambient).2).1 =
    ret (iloc Tables.one_segment [1], iloc Tables.one_segment [0]) /\
  (call Tables.ambient).1 <> (call (call Tables.ambient).2).1 /\
  (split Tables.ambient).1 <> (split (split Tables.ambient).2).1.
Proof.
  split; [vm_compute; reflexivity|].
  split; [vm_compute; reflexivity|].
  split; vm_compute; discriminate.
Qed.

(** C1, the claim fails on the [split_experiment_data] of
    [wavelet_classification.py]. Two interictal segments and one preictal
    segment of two rows each, every argument at its default (80% training
    rows, downsampling with ratio 1, no seed): the downsampling keeps the
    two rows of the first interictal segment, and the row mask that
    follows sends the first of them to train and the second to test. *)
Lemma split_experiment_data_splits_a_segment :
  exists train test w',
    Wavelet.split_experiment_data Tables.interictal4 Tables.preictal2
                                  (round_double (4 # 5)) true 1 None
                                  Tables.ambient
      = (ret (train, test), w') /\
    train = iloc Tables.three_segments [0; 4; 5] /\
    test = iloc Tables.three_segments [1] /\
    "interictal_segment_0001" ∈ segment_ids train ∩ segment_ids test.
Proof.
  eexists _, _, _. split; [vm_compute; reflexivity|].
  split; [reflexivity|]. split; [reflexivity|].
  apply elem_of_intersection. split; vm_compute; set_solver.
Qed.

(** ** [random_split] with a number of rows *)

Lemma int_of_float_nonneg (q : Q) : (0 <= q)%Q -> int_of_float q = Qfloor q.
Proof.
  destruct q as [n d]. unfold Qle, int_of_float, Qfloor. simpl.
  intros Hn. apply Z.quot_div_nonneg; lia.
Qed.

(** Rounding to a double keeps the sign. *)
Lemma pow2_pos (k : Z) : (0 < pow2 k)%Q.
Proof.
  unfold pow2. destruct (Z.leb_spec 0 k).
  - change 0%Q with (inject_Z 0). rewrite <- Zlt_Qlt.
    by apply Z.pow_pos_nonneg.
  - reflexivity.
Qed.

Lemma round_half_even_nonneg (x : Q) :
  (0 <= x)%Q -> (0 <= round_half_even x)%Z.
Proof.
  intros Hx. unfold round_half_even.
  assert (0 <= Qfloor x)%Z by (apply (Qfloor_resp_le 0 x Hx)).
  destruct (_ ?= _)%Q; [destruct (Z.even _)| |]; lia.
Qed.

Lemma round_double_nonneg (q : Q) : (0 <= q)%Q -> (0 <= round_double q)%Q.
Proof.
  intros Hq. unfold round_double.
  destruct (Qnum q) as [|n|n] eqn:Hn.
  - apply Qle_refl.
  - simpl. rewrite Qred_correct.
    apply Qmult_le_0_compat; [|apply Qlt_le_weak, pow2_pos].
    change 0%Q with (inject_Z 0). rewrite <- Zle_Qle.
    apply round_half_even_nonneg.
    apply Qle_shift_div_l; [apply pow2_pos|].
    rewrite Qmult_0_l. apply Qabs_nonneg.
  - exfalso. unfold Qle in Hq. rewrite Hn in Hq. simpl in Hq. lia.
Qed.

Lemma double_mul_nonneg (x : Q) (n : nat) :
  (0 <= x)%Q -> (0 <= double_mul x (double_of_Z (Z.of_nat n)))%Q.
Proof.
  intros Hx. apply round_double_nonneg, Qmult_le_0_compat; [done|].
  apply round_double_nonneg.
  change 0%Q with (inject_Z 0). rewrite <- Zle_Qle. lia.
Qed.

Section LabelSelection.
Implicit Types (df rs : dataframe) (idx : list nat).

Lemma iloc_cons {A} (a : list A) i idx :
  iloc a (i :: idx) =
  match a !! i with
  | Some x => x :: iloc a idx
  | None => iloc a idx
  end.
Proof. reflexivity. Qed.

Lemma iloc_fmap {A B} (f : A -> B) (a : list A) idx :
  iloc (map f a) idx = map f (iloc a idx).
Proof.
  induction idx as [|i idx IH]; [done|].
  rewrite !iloc_cons, IH.
  pose proof (list_lookup_fmap f a i) as Hi.
  change (f <$> a) with (map f a) in Hi. rewrite Hi.
  by destruct (a !! i).
Qed.

Lemma iloc_length {A} (a : list A) idx :
  Forall (fun i => i < length a) idx -> length (iloc a idx) = length idx.
Proof.
  induction 1 as [|i idx Hi _ IH]; [done|].
  rewrite iloc_cons.
  destruct (lookup_lt_is_Some_2 a i Hi) as [x ->]. simpl. by rewrite IH.
Qed.

Lemma iloc_NoDup {A} (a : list A) idx :
  NoDup a -> NoDup idx -> NoDup (iloc a idx).
Proof.
  intros Ha. induction 1 as [|i idx Hi _ IH]; [constructor|].
  rewrite iloc_cons.
  destruct (a !! i) as [x|] eqn:Hx; [|done].
  constructor; [|done].
  rewrite elem_of_iloc. intros (j & Hj & Hjx).
  assert (i = j) by exact (NoDup_lookup a i j x Ha Hx Hjx). by subst.
Qed.

Lemma iloc_submseteq {A} (a : list A) idx :
  NoDup a -> NoDup idx -> iloc a idx ⊆+ a.
Proof.
  intros Ha Hidx. apply NoDup_submseteq; [by apply iloc_NoDup|].
  intros x. rewrite elem_of_iloc. intros (i & _ & Hi).
  by eapply list_elem_of_lookup_2.
Qed.

(** With unique index labels a label names one row. *)
Lemma filter_label df (x : row) :
  NoDup (map index df) -> x ∈ df ->
  filter (fun y => index y = index x) df = [x].
Proof.
  induction df as [|y df IH]; intros Hnd Hin; [by inversion Hin|].
  simpl in Hnd. apply NoDup_cons in Hnd as [Hy Hnd].
  rewrite filter_cons. apply elem_of_cons in Hin as [Hxy | Hin].
  - subst y. rewrite decide_True by done. f_equal.
    destruct (filter (fun y => index y = index x) df) as [|z l] eqn:Hf; [done|].
    assert (Hz : z ∈ filter (fun y => index y = index x) df)
      by (rewrite Hf; left).
    apply list_elem_of_filter in Hz as [Heq Hz].
    exfalso. apply Hy. rewrite <- Heq.
    change (map index df) with (index <$> df).
    apply list_elem_of_fmap. by exists z.
  - rewrite decide_False; [by apply IH|].
    intros Heq. apply Hy. rewrite Heq.
    change (map index df) with (index <$> df).
    apply list_elem_of_fmap. by exists x.
Qed.

Lemma ix_labels df rs :
  NoDup (map index df) -> (forall x, x ∈ rs -> x ∈ df) ->
  ix df (map index rs) = rs.
Proof.
  intros Hnd. unfold ix. induction rs as [|x rs IH]; intros Hin; [done|].
  simpl. rewrite filter_label by (done || apply Hin; left).
  simpl. f_equal. apply IH. intros z Hz. apply Hin. by right.
Qed.

End LabelSelection.

Section Downsampling.
Context {PyG NpG : Type} `{Generators PyG NpG}.
Implicit Types (w : world PyG NpG) (df : dataframe).

Lemma ensure_seed_stdout seed w :
  console (Wavelet.ensure_seed seed w).2 = console w.
Proof.
  unfold Wavelet.ensure_seed. destruct seed; [done|].
  by destruct (randrange 0 4294967295 (py_random w)).
Qed.

Lemma np_random_choice_sample {A} (a : list A) (size : Q) (g : NpG) :
  (0 <= size)%Q -> (Qfloor size <= Z.of_nat (length a))%Z ->
  exists idx g',
    np_random_choice a size g = (ret (iloc a idx), g') /\
    NoDup idx /\ length idx = Z.to_nat (Qfloor size) /\
    Forall (fun i => i < length a) idx.
Proof.
  intros Hpos Hle. unfold np_random_choice.
  rewrite int_of_float_nonneg by done.
  assert (0 <= Qfloor size)%Z by (apply (Qfloor_resp_le 0 size Hpos)).
  destruct (Z.ltb_spec (Qfloor size) 0); [lia|].
  destruct (Z.ltb_spec (Z.of_nat (length a)) (Qfloor size)); [lia|].
  pose proof (np_sample_spec (length a) (Z.to_nat (Qfloor size)) g
                ltac:(lia)) as (Hnd & Hlen & Hall).
  destruct (np_sample (length a) (Z.to_nat (Qfloor size)) g) as [idx g'].
  by exists idx, g'.
Qed.

Lemma np_random_choice_too_many {A} (a : list A) (size : Q) (g : NpG) :
  (0 <= size)%Q -> (Z.of_nat (length a) < Qfloor size)%Z ->
  np_random_choice a size g = (raise ValueError, g).
Proof.
  intros Hpos Hlt. unfold np_random_choice.
  rewrite int_of_float_nonneg by done.
  destruct (Z.ltb_spec (Qfloor size) 0); [done|].
  destruct (Z.ltb_spec (Z.of_nat (length a)) (Qfloor size)); [done | lia].
Qed.

(** [random_split(df, desired_rows=size)]: a draw without replacement of
    exactly [floor size] rows, or [ValueError] when the table is too
    small. *)
Lemma random_split_desired_rows df (size : Q) seed w :
  NoDup (map index df) -> (0 <= size)%Q ->
  ((Qfloor size <= Z.of_nat (length df))%Z ->
   exists sample rest w',
     Wavelet.random_split df None (Some size) seed w =
       (ret (sample, rest), w') /\
     Z.of_nat (length sample) = Qfloor size /\
     sample ⊆+ df /\ console w' = console w) /\
  ((Z.of_nat (length df) < Qfloor size)%Z ->
   exists w',
     Wavelet.random_split df None (Some size) seed w =
       (raise ValueError, w')).
Proof.
  intros Hnd Hpos.
  assert (Hdf : NoDup df) by (by apply (NoDup_fmap_1 index)).
  pose proof (ensure_seed_stdout seed w) as Hout.
  unfold Wavelet.random_split.
  destruct (Wavelet.ensure_seed seed w) as [s w1]. simpl in Hout.
  split.
  - intros Hle.
    destruct (np_random_choice_sample (map index df) size (np_random w1) Hpos)
      as (idx & g' & -> & Hidx & Hlen & Hall); [by rewrite length_map|].
    rewrite length_map in Hall.
    eexists _, _, _. split; [reflexivity|].
    rewrite iloc_fmap, ix_labels; [|done|].
    + rewrite iloc_length by done.
      assert (0 <= Qfloor size)%Z by (apply (Qfloor_resp_le 0 size Hpos)).
      repeat split; [lia | by apply iloc_submseteq | done].
    + intros x. rewrite elem_of_iloc. intros (i & _ & Hi).
      by eapply list_elem_of_lookup_2.
  - intros Hlt.
    rewrite np_random_choice_too_many by (rewrite ?length_map; done).
    by eexists.
Qed.

(** C2, as amended. Downsampling with a ratio [r >= 0] over [p] preictal
    rows, on tables keyed by unique (segment, frame) labels, asks for
    [r * p] rows as Python computes that product: in double precision,
    the exact product rounded to the nearest double (taken here within the
    range of the finite doubles). When the integer part of that double
    does not exceed the interictal rows, [split_experiment_data] draws
    exactly that many interictal rows without replacement, reports the
    count, and returns a split of those rows together with all preictal
    rows; when it exceeds them, the call raises the [ValueError] of
    [np.random.choice] (the specification's InsufficientDataError)
    instead of returning fewer rows. *)
Theorem downsampling_draws_double_product
    (train_interictal train_preictal : dataframe)
    (training_ratio r : Q) seed w :
  (0 <= r)%Q ->
  (r * double_of_Z (Z.of_nat (length train_preictal)) <= double_max)%Q ->
  NoDup (map index train_interictal) ->
  let desired :=
    Qfloor (double_mul r (double_of_Z (Z.of_nat (length train_preictal)))) in
  ((desired <= Z.of_nat (length train_interictal))%Z ->
   exists sample train test w',
     Wavelet.split_experiment_data train_interictal train_preictal
                                   training_ratio true r seed w
       = (ret (train, test), w') /\
     Z.of_nat (length sample) = desired /\
     sample ⊆+ train_interictal /\
     train ++ test ≡ₚ sample ++ train_preictal /\
     AfterDownsampling (length sample) ∈ console w') /\
  ((Z.of_nat (length train_interictal) < desired)%Z ->
   exists w',
     Wavelet.split_experiment_data train_interictal train_preictal
                                   training_ratio true r seed w
       = (raise ValueError, w')).
Proof.
  intros Hr _ Hnd desired.
  pose proof (double_mul_nonneg r (length train_preictal) Hr) as Hsize.
  unfold Wavelet.split_experiment_data.
  set (w0 := if (length train_interictal <? length train_preictal)%nat
             then _ else w).
  destruct (Wavelet.ensure_seed seed w0) as [s w1].
  destruct (random_split_desired_rows train_interictal _ (Some s) w1
              Hnd Hsize) as [Hok Herr].
  split.
  - intros Hle. destruct (Hok Hle) as (sample & rest & w2 & -> & Hlen & Hsub & _).
    cbn -[Wavelet.random_split Wavelet.print].
    set (w3 := Wavelet.print _ (Wavelet.print _ (Wavelet.print _ w2))).
    destruct (random_split_ratio (sample ++ train_preictal) training_ratio
                None (Some s) w3) as [w4 Hrun].
    pose proof (ensure_seed_stdout (Some s) w3) as Hout.
    exists sample. eexists _, _, w4.
    split; [exact Hrun|].
    split; [exact Hlen|]. split; [exact Hsub|].
    split; [apply boolean_index_split, drawn_mask_length|].
    unfold Wavelet.random_split in Hrun. simpl in Hrun.
    destruct (np_rand _ _) as [us g'] in Hrun.
    inversion Hrun; subst w4. simpl.
    apply elem_of_app. right. left.
  - intros Hlt. destruct (Herr Hlt) as [w2 ->]. by eexists.
Qed.

End Downsampling.

(** ** The segment-aware splitter *)

Section SegmentFolds.
Implicit Types (df : dataframe) (segs : list string) (m : list bool).

Lemma elem_of_segment_ids df s :
  s ∈ segment_ids df <-> exists x, x ∈ df /\ segment x = s.
Proof.
  unfold segment_ids. rewrite elem_of_list_to_set.
  change (map segment df) with (segment <$> df).
  rewrite list_elem_of_fmap. split; intros (x & ? & ?); by exists x.
Qed.

Lemma elem_of_rows_of df segs i :
  i ∈ Dataset.rows_of df segs <->
  exists x, df !! i = Some x /\ segment x ∈ segs.
Proof.
  unfold Dataset.rows_of. rewrite elem_of_mask_positions.
  pose proof (list_lookup_fmap
                (fun x => bool_decide (segment x ∈ segs)) df i) as Hi.
  change (_ <$> df) with
    (map (fun x => bool_decide (segment x ∈ segs)) df) in Hi.
  rewrite Hi. destruct (df !! i) as [x|]; simpl.
  - split.
    + intros Hb. exists x. split; [done|].
      inversion Hb as [Hb']. by apply bool_decide_eq_true_1 in Hb'.
    + intros (y & Hy & Hin). inversion Hy; subst y.
      f_equal. by apply bool_decide_eq_true_2.
  - split; [discriminate | by intros (y & Hy & _)].
Qed.

Lemma segments_of_rows_of df segs s :
  s ∈ segment_ids (iloc df (Dataset.rows_of df segs)) -> s ∈ segs.
Proof.
  rewrite elem_of_segment_ids. intros (x & Hx & <-).
  apply elem_of_iloc in Hx as (i & Hi & Hix).
  apply elem_of_rows_of in Hi as (y & Hy & Hin). congruence.
Qed.

(** A mask and its complement pick disjoint parts of a duplicate-free
    list. *)
Lemma boolean_index_complement segs m s :
  NoDup segs ->
  s ∈ boolean_index segs (map negb m) -> s ∉ boolean_index segs m.
Proof.
  intros Hnd Hneg Hpos.
  apply elem_of_boolean_index in Hneg as (i & Hi & His).
  apply elem_of_boolean_index in Hpos as (j & Hj & Hjs).
  assert (i = j) by exact (NoDup_lookup segs i j s Hnd His Hjs). subst j.
  pose proof (list_lookup_fmap negb m i) as Hm.
  change (negb <$> m) with (map negb m) in Hm.
  rewrite Hm, Hj in Hi. discriminate.
Qed.

Lemma SegmentCrossValidator_folds df base n_folds random_state folds f :
  Dataset.SegmentCrossValidator df base n_folds random_state = ret folds ->
  f ∈ folds ->
  segment_ids (iloc df f.1) ∩ segment_ids (iloc df f.2) = ∅.
Proof.
  unfold Dataset.SegmentCrossValidator.
  destruct (_ <? n_folds)%nat; [discriminate|].
  destruct (negb _); [discriminate|].
  destruct (base _ n_folds random_state) as [e|masks]; [discriminate|].
  simpl. intros [= <-] Hf.
  change (map ?g masks) with (g <$> masks) in Hf.
  apply list_elem_of_fmap in Hf as (m & -> & _). simpl.
  apply set_eq. intros s. rewrite elem_of_intersection. split.
  - intros [Htrain Htest].
    apply segments_of_rows_of in Htrain, Htest.
    exfalso. eapply boolean_index_complement; [|exact Htrain|exact Htest].
    apply NoDup_remove_dups.
  - intros Hs. by apply not_elem_of_empty in Hs.
Qed.


End SegmentFolds.

Section SplitterClaims.
Context {PyG NpG : Type} `{Generators PyG NpG}.
Variable StratifiedKFold : list Z -> nat -> option Z -> result (list (list bool)).

(** The two sides of the segment-aware train/test partition share no
    segment. *)
Lemma split_experiment_data_segments
    (base_split : list Z -> Q -> option Z -> list bool)
    (interictal preictal : dataframe) (training_ratio : Q)
    (random_state : option Z) :
  let sides :=
    Dataset.split_experiment_data base_split interictal preictal
                                  training_ratio true random_state in
  segment_ids sides.1 ∩ segment_ids sides.2 = ∅.
Proof.
  simpl. apply set_eq. intros s. rewrite elem_of_intersection. split.
  - intros [Htrain Htest].
    apply segments_of_rows_of in Htrain, Htest.
    exfalso. eapply boolean_index_complement; [|exact Htrain|exact Htest].
    apply NoDup_remove_dups.
  - intros Hs. by apply not_elem_of_empty in Hs.
Qed.

(** C1, as amended. On the segment-aware path no [segment_id] occurs on
    both sides: not in any fold that [get_cv_generator] returns with
    [do_segment_split] true, and not in the train/test partition that
    [train_model] takes from [dataset.split_experiment_data] with
    [do_segment_split] true. (The [split_experiment_data] of
    [wavelet_classification.py] is no part of this: it splits by rows.) *)
Theorem segment_aware_sides_share_no_segment
    (df interictal preictal : dataframe) (random_state : option Z) :
  (forall folds f,
     Modeling.get_cv_generator StratifiedKFold df true random_state
       = ret folds ->
     f ∈ folds ->
     segment_ids (iloc df f.1) ∩ segment_ids (iloc df f.2) = ∅) /\
  (forall base_split training_ratio train test,
     Dataset.split_experiment_data base_split interictal preictal
                                   training_ratio true random_state
       = (train, test) ->
     segment_ids train ∩ segment_ids test = ∅).
Proof.
  split.
  - intros folds f Hcv Hf.
    by eapply SegmentCrossValidator_folds.
  - intros base_split training_ratio train test Hsplit.
    pose proof (split_experiment_data_segments base_split interictal preictal
                  training_ratio random_state) as Hsides.
    cbv zeta in Hsides. by rewrite Hsplit in Hsides.
Qed.

Variable l1_min_c : matrix -> list Z -> result Q.
Variable ParameterGrid : list pydict -> list pydict.
Variable fit : value -> pydict -> matrix -> list Z -> result fitted.


End SplitterClaims.

Lemma segment_aware_sides_share_no_segment_witness :
  let f : fold :=
    ([1; 2; 3; 4; 5; 6; 7; 8; 9; 11; 12; 13; 14; 15; 16; 17; 18; 19], [0; 10]) in
  segment_ids (iloc Tables.twenty_segments f.1) ∩
  segment_ids (iloc Tables.twenty_segments f.2) = ∅ /\
  segment_ids (iloc Tables.three_segments [0; 1; 4; 5]) ∩
  segment_ids (iloc Tables.three_segments [2; 3]) = ∅.
Proof.
  intros f.
  pose proof (segment_aware_sides_share_no_segment RoundRobin.kfold
                Tables.twenty_segments Tables.interictal4 Tables.preictal2
                None) as [Hfolds Hsides].
  split.
  - eapply (Hfolds _ f).
    + vm_compute. reflexivity.
    + left.
  - apply (Hsides (fun _ _ _ => [false; true; false]) (4 # 5)%Q).
    vm_compute. reflexivity.
Defined.


(** ** Scoring in the grid search *)

Lemma mapM_Forall2 {A B} (f : A -> result B) (l : list A) (bs : list B) :
  mapM f l = ret bs -> Forall2 (fun a b => f a = ret b) l bs.
Proof.
  revert bs. induction l as [|a l IH]; intros bs; simpl.
  - intros [= <-]. constructor.
  - destruct (f a) as [e|b] eqn:Hfa; simpl; [discriminate|].
    destruct (mapM f l) as [e|bs'] eqn:Hl; simpl; [discriminate|].
    intros [= <-]. constructor; [done | by apply IH].
Qed.

Section Scoring.
Variable ParameterGrid : list pydict -> list pydict.
Variable fit : value -> pydict -> matrix -> list Z -> result fitted.

Lemma GridSearchCV_fit_scores est grid cv X y gs :
  GridSearchCV_fit ParameterGrid fit est grid cv
                   (make_scorer roc_auc_score "weighted") X y = ret gs ->
  forall params scores,
    (params, scores) ∈ grid_scores_ gs ->
    Forall2 (hard_label_auc fit est X y params) cv scores.
Proof.
  unfold GridSearchCV_fit.
  destruct (mapM _ (ParameterGrid grid)) as [e|table] eqn:Htable;
    simpl; [discriminate|].
  destruct table as [|c rest]; [discriminate|].
  destruct (fit est _ X y) as [e|best]; simpl; [discriminate|].
  intros [= <-] params scores Hin. simpl in Hin.
  apply mapM_Forall2 in Htable.
  apply list_elem_of_lookup in Hin as [i Hi].
  destruct (Forall2_lookup_r _ _ _ _ _ Htable Hi) as (p & _ & Hp).
  destruct (mapM _ cv) as [e|s] eqn:Hs; simpl in Hp; [discriminate|].
  injection Hp as <- <-.
  apply mapM_Forall2 in Hs.
  eapply Forall2_impl; [exact Hs|].
  intros f q. unfold fit_and_score, hard_label_auc, make_scorer.
  destruct (fit est p _ _) as [e|fitted_est]; simpl; [discriminate|].
  intros Hq. by exists fitted_est.
Qed.

Variable l1_min_c : matrix -> list Z -> result Q.
Variable StratifiedKFold : list Z -> nat -> option Z -> result (list (list bool)).
Variable train_test_split :
  matrix -> list Z -> Q -> option Z -> matrix * matrix * list Z * list Z.
Context {PyG NpG : Type} `{Generators PyG NpG}.

(** C4, as amended. Every score the grid search assigns, in
    [select_model] and in [find_best_model] with its default scorer, is
    the weighted area under the ROC curve of the hard class predictions
    ([estimator.predict]) of the estimator fitted on the fold's train
    side, whether or not the estimator has probability output. *)
Theorem grid_scores_from_hard_predictions :
  (forall training_data method do_segment_split model_params random_state
          h gs h',
     Modeling.select_model l1_min_c StratifiedKFold ParameterGrid fit
       training_data method do_segment_split model_params random_state h
       = (ret gs, h') ->
     exists est cv,
       Modeling.get_cv_generator StratifiedKFold training_data
         do_segment_split random_state = ret cv /\
       forall params scores,
         (params, scores) ∈ grid_scores_ gs ->
         Forall2 (hard_label_auc fit est (map feats training_data)
                                 (map Preictal training_data) params)
                 cv scores) /\
  (forall interictal preictal training_ratio do_downsample method seed
          (w : world PyG NpG) gs w',
     Wavelet.find_best_model StratifiedKFold ParameterGrid fit
       train_test_split interictal preictal training_ratio None
       do_downsample method seed w = (ret gs, w') ->
     exists complete_data rest w1 est test_masks,
       Wavelet.split_experiment_data interictal preictal 1 do_downsample 1
         seed w = (ret (complete_data, rest), w1) /\
       Wavelet.create_model method = ret est /\
       let '(X_train, _, y_train, _) :=
         train_test_split (map feats complete_data)
                          (map Preictal complete_data) training_ratio seed in
       StratifiedKFold y_train 10 None = ret test_masks /\
       forall params scores,
         (params, scores) ∈ grid_scores_ gs ->
         Forall2 (hard_label_auc fit est X_train y_train params)
                 (partition_iterator test_masks) scores).
Proof.
  split.
  - intros training_data method do_segment_split model_params random_state
           h gs h'.
    unfold Modeling.select_model.
    destruct (Modeling.get_cv_generator _ _ _ _) as [e|cv];
      [discriminate|].
    destruct (Modeling.get_model _ _ _ _ _ _ _) as [[e|md] h1];
      [discriminate|].
    intros [= Hfit <-]. exists (estimator md), cv. split; [done|].
    by eapply GridSearchCV_fit_scores.
  - intros interictal preictal training_ratio do_downsample method seed
           w gs w'.
    unfold Wavelet.find_best_model.
    destruct (Wavelet.split_experiment_data _ _ _ _ _ _ _)
      as [[e|[complete_data rest]] w1]; [discriminate|].
    destruct (Wavelet.create_model method) as [e|est]; simpl;
      [discriminate|].
    destruct (train_test_split _ _ _ _)
      as [[[X_train X_test] y_train] y_test] eqn:Hsplit.
    destruct (StratifiedKFold y_train 10 None) as [e|test_masks] eqn:Hcv;
      simpl; [discriminate|].
    destruct (Wavelet.parameters_for_method method) as [g|]; simpl;
      [|discriminate].
    destruct (GridSearchCV_fit _ _ _ _ _ _ _ _) as [e|c] eqn:Hfit; simpl;
      [discriminate|].
    intros [= <- <-].
    exists complete_data, rest, w1, est, test_masks.
    split; [done|]. split; [done|]. rewrite Hsplit.
    split; [exact Hcv|]. by eapply GridSearchCV_fit_scores.
Qed.

End Scoring.

(** C4, the claim fails: [Tables.cautious] has probability output, its
    class-1 probabilities rank the rows perfectly (area 1), and the scorer
    of the grid search gives it 1/2, the area of its hard labels. *)
Lemma scorer_ignores_probabilities :
  let X := map feats Tables.interictal4 ++ map feats Tables.preictal2 in
  let y := map Preictal Tables.interictal4 ++ map Preictal Tables.preictal2 in
  is_Some (est_predict_proba Tables.cautious) /\
  make_scorer roc_auc_score "weighted" Tables.cautious X y = ret (1 # 2)%Q /\
  score_as_specified Tables.cautious X y = ret 1%Q /\
  make_scorer roc_auc_score "weighted" Tables.cautious X y
    <> score_as_specified Tables.cautious X y.
Proof.
  split; [by eexists|].
  split; [vm_compute; reflexivity|].
  split; [vm_compute; reflexivity|].
  vm_compute. discriminate.
Qed.

Lemma grid_scores_from_hard_predictions_witness :
  exists est cv,
    Modeling.get_cv_generator RoundRobin.kfold Tables.twenty_segments true None
      = ret cv /\
    Forall2 (hard_label_auc Tables.fit est
               (map feats Tables.twenty_segments)
               (map Preictal Tables.twenty_segments)
               (Modeling.dict_of [("loss", strs ["hinge"; "log"]);
                                  ("penalty", strs ["l1"; "l2"; "elasticnet"]);
                                  ("alpha", floats [1 # 10000; 1 # 1000; 1 # 100; 1 # 10]%Q)]))
            cv (repeat (1 # 2)%Q 10).
Proof.
  destruct (proj1 (grid_scores_from_hard_predictions
                     Tables.ParameterGrid Tables.fit Tables.l1_min_c
                     RoundRobin.kfold Tables.train_test_split
                     (PyG := list Z) (NpG := list Q))
                  Tables.twenty_segments "sgd" true None None ∅
                  _ _ ltac:(vm_compute; reflexivity))
    as (est & cv & Hcv & Hscores).
  exists est, cv. split; [exact Hcv|].
  apply Hscores. vm_compute. left.
Defined.

(** ** [predict] *)

Section Predict.
Import Modeling.

Lemma classes_of_delegate clf :
  match clf with
  | GridSearchCV g => classes_ (best_estimator_ g)
  | Estimator e => classes_ e
  end = classes_ (delegate clf).
Proof. by destruct clf. Qed.

Lemma index_of_first (x : Z) classes i :
  classes !! i = Some x ->
  (forall j, j < i -> classes !! j <> Some x) ->
  index_of x classes = ret i.
Proof.
  intros Hi Hfirst. unfold index_of.
  assert (Hfind : list_find (fun c => c = x) classes = Some (i, x)).
  { apply list_find_Some. repeat split; [done|].
    intros j y Hj Hlt ->. by apply (Hfirst j). }
  by rewrite Hfind.
Qed.

Lemma index_of_absent (x : Z) classes :
  x ∉ classes -> index_of x classes = raise ValueError.
Proof.
  intros Hx. unfold index_of.
  assert (Hfind : list_find (fun c => c = x) classes = None).
  { apply list_find_None, Forall_forall. by intros y Hy ->. }
  by rewrite Hfind.
Qed.

Lemma column_nth i (m : matrix) :
  Forall (fun x => i < length x) m ->
  column i m = ret (map (fun x => nth i x 0%Q) m).
Proof.
  unfold column. induction 1 as [|x m Hx _ IH]; [done|].
  simpl. destruct (lookup_lt_is_Some_2 x i Hx) as [q Hq].
  rewrite Hq. simpl. rewrite IH. simpl.
  by rewrite (nth_lookup_Some _ _ _ _ Hq).
Qed.

(** C5. When probabilities are requested and the estimator has
    [predict_proba], [predict] returns the column of the probability
    matrix at the position that label 1 has in the estimator's own
    class ordering, wherever that position is (and raises when label 1
    is not among the classes); in every other case it returns the hard
    labels of [clf.predict]. *)
Theorem predict_class_one_column_or_labels (clf : classifier) (X : matrix) :
  (forall predict_proba i,
     est_predict_proba (delegate clf) = Some predict_proba ->
     classes_ (delegate clf) !! i = Some 1%Z ->
     (forall j, j < i -> classes_ (delegate clf) !! j <> Some 1%Z) ->
     Forall (fun x => i < length x) (predict_proba X) ->
     predict clf X true =
     ret (Probabilities (map (fun x => nth i x 0%Q) (predict_proba X)))) /\
  (forall predict_proba,
     est_predict_proba (delegate clf) = Some predict_proba ->
     1%Z ∉ classes_ (delegate clf) ->
     predict clf X true = raise ValueError) /\
  (est_predict_proba (delegate clf) = None ->
   predict clf X true = ret (Labels (est_predict (delegate clf) X))) /\
  predict clf X false = ret (Labels (est_predict (delegate clf) X)).
Proof.
  unfold predict. rewrite classes_of_delegate.
  repeat split.
  - intros predict_proba i -> Hi Hfirst Hrows.
    rewrite (index_of_first _ _ _ Hi Hfirst). simpl.
    by rewrite column_nth.
  - intros predict_proba -> Habsent.
    by rewrite index_of_absent.
  - by intros ->.
Qed.

End Predict.

Lemma predict_class_one_column_or_labels_witness :
  Modeling.predict (Modeling.Estimator one_first) [[]; []] true
    = ret (Modeling.Probabilities [7 # 10; 7 # 10]%Q) /\
  Modeling.predict (Modeling.Estimator one_last) [[]; []] true
    = ret (Modeling.Probabilities [7 # 10; 7 # 10]%Q).
Proof.
  split.
  - apply (proj1 (predict_class_one_column_or_labels
                    (Modeling.Estimator one_first) [[]; []])
                 proba_one_first 0);
      [reflexivity | reflexivity | intros j Hj; lia
      | repeat constructor].
  - apply (proj1 (predict_class_one_column_or_labels
                    (Modeling.Estimator one_last) [[]; []])
                 proba_one_last 1);
      [reflexivity | reflexivity
      | intros [|j] Hj; [discriminate | lia]
      | repeat constructor].
Defined.

(** ** The registry *)

Section Registry.
Import Modeling.

Lemma eqb_unsupported method m :
  method ∉ supported_methods -> m ∈ supported_methods ->
  String.eqb method m = false.
Proof. intros Hn Hm. apply String.eqb_neq. by intros ->. Qed.

Ltac not_in_registry H :=
  rewrite !(eqb_unsupported _ _ H) by (unfold supported_methods; set_solver).

Context {features labels : Type}.
Variable l1_min_c : features -> labels -> result Q.

Lemma get_model_unsupported method x y model_params random_state h :
  method ∉ supported_methods ->
  get_model l1_min_c method x y model_params random_state h =
  (match l1_min_c x y with
   | inl e => raise e
   | inr _ => raise NotImplementedError
   end, h).
Proof.
  intros Hn. unfold get_model. destruct (l1_min_c x y); [done|].
  by not_in_registry Hn.
Qed.

Lemma get_model_class_unsupported method :
  method ∉ supported_methods ->
  get_model_class method = raise NotImplementedError.
Proof. intros Hn. unfold get_model_class. by not_in_registry Hn. Qed.

Lemma create_model_unsupported method :
  method ∉ supported_methods ->
  Wavelet.create_model method = raise NotImplementedError.
Proof. intros Hn. unfold Wavelet.create_model. by not_in_registry Hn. Qed.

Lemma get_model_bagging x y l random_state h d c :
  l1_min_c x y = ret c -> h !! l = Some d ->
  get_model l1_min_c "bagging" x y (Some l) random_state h =
  (ret (mk_model_dict
          (VEst BaggingClassifier
                [("base_estimator", bagging_base random_state)])
          (GridRef l)),
   <[l := bagging_params random_state d]> h).
Proof.
  intros Hc Hl. unfold get_model. unfold ret in Hc. rewrite Hc.
  simpl String.eqb. cbv beta iota.
  unfold contains, setitem, bagging_params. rewrite Hl.
  rewrite lookup_insert_eq.
  rewrite lookup_insert_ne by done.
  destruct (decide (is_Some (d !! "max_samples"))) as [Hs|Hs].
  - by rewrite bool_decide_eq_true_2.
  - rewrite bool_decide_eq_false_2 by done.
    by rewrite insert_insert_eq.
Qed.

Lemma get_model_other x y l random_state h c method :
  l1_min_c x y = ret c ->
  method ∈ supported_methods -> method <> "bagging" ->
  exists clf,
    get_model l1_min_c method x y (Some l) random_state h =
    (ret (mk_model_dict clf (GridRef l)), h).
Proof.
  intros Hc Hm Hne. unfold get_model. unfold ret in Hc. rewrite Hc.
  unfold supported_methods in Hm.
  repeat (apply elem_of_cons in Hm as [-> | Hm]);
    try done; try (by eexists).
  by apply elem_of_nil in Hm.
Qed.

End Registry.

Section RegistryClaims.
Import Modeling.
Context {PyG NpG : Type} `{Generators PyG NpG}.
Variable l1_min_c : matrix -> list Z -> result Q.
Variable StratifiedKFold : list Z -> nat -> option Z -> result (list (list bool)).
Variable ParameterGrid : list pydict -> list pydict.
Variable fit : value -> pydict -> matrix -> list Z -> result fitted.
Variable train_test_split :
  matrix -> list Z -> Q -> option Z -> matrix * matrix * list Z * list Z.

Lemma bagging_params_base random_state d :
  bagging_params random_state d !! "base_estimator"
  = Some (bagging_base random_state).
Proof.
  unfold bagging_params. destruct (decide _).
  - apply lookup_insert_eq.
  - rewrite lookup_insert_ne by done. apply lookup_insert_eq.
Qed.

Lemma bagging_params_max_samples random_state d :
  bagging_params random_state d !! "max_samples"
  = Some (default (VFloat (1 # 2)) (d !! "max_samples")).
Proof.
  unfold bagging_params. destruct (decide _) as [[v Hv]|Hs].
  - rewrite lookup_insert_ne by done. by rewrite Hv.
  - rewrite lookup_insert_eq.
    destruct (d !! "max_samples") as [v|] eqn:Hv; [|done].
    exfalso. apply Hs. by exists v.
Qed.

Lemma bagging_params_other random_state d k :
  k <> "base_estimator" -> k <> "max_samples" ->
  bagging_params random_state d !! k = d !! k.
Proof.
  intros Hb Hm. unfold bagging_params. destruct (decide _).
  - by rewrite lookup_insert_ne.
  - by rewrite !lookup_insert_ne.
Qed.

(** C8. A method name outside the enumeration makes [get_model_class],
    [create_model] and [get_model] raise [NotImplementedError] (the
    specification's UnsupportedMethodError); [get_model] does so once
    its call of [l1_min_c] has returned. The callers do not catch it:
    [select_model] and [find_best_model] end with the same error. *)
Theorem unsupported_method_raises (method : string) :
  method ∉ supported_methods ->
  get_model_class method = raise NotImplementedError /\
  Wavelet.create_model method = raise NotImplementedError /\
  (forall X y model_params random_state h c,
     l1_min_c X y = ret c ->
     get_model l1_min_c method X y model_params random_state h
       = (raise NotImplementedError, h)) /\
  (forall training_data do_segment_split model_params random_state h cv c,
     get_cv_generator StratifiedKFold training_data do_segment_split
       random_state = ret cv ->
     l1_min_c (map feats training_data) (map Preictal training_data)
       = ret c ->
     select_model l1_min_c StratifiedKFold ParameterGrid fit training_data
       method do_segment_split model_params random_state h
       = (raise NotImplementedError, h)) /\
  (forall interictal preictal training_ratio scores do_downsample seed
          (w : world PyG NpG) complete_data rest w1,
     Wavelet.split_experiment_data interictal preictal 1 do_downsample 1
       seed w = (ret (complete_data, rest), w1) ->
     Wavelet.find_best_model StratifiedKFold ParameterGrid fit
       train_test_split interictal preictal training_ratio scores
       do_downsample method seed w
       = (raise NotImplementedError, w1)).
Proof.
  intros Hn.
  split; [by apply get_model_class_unsupported|].
  split; [by apply create_model_unsupported|].
  split; [|split].
  - intros X y model_params random_state h c Hc.
    rewrite get_model_unsupported by done. by rewrite Hc.
  - intros training_data do_segment_split model_params random_state h cv c
           Hcv Hc.
    unfold select_model. rewrite Hcv.
    rewrite get_model_unsupported by done. by rewrite Hc.
  - intros interictal preictal training_ratio scores do_downsample seed
           w complete_data rest w1 Hsplit.
    unfold Wavelet.find_best_model. rewrite Hsplit.
    by rewrite create_model_unsupported.
Qed.


(** C10. For 'bagging' with an override dict, [get_model] writes into
    the caller's dict: it sets 'base_estimator' and, when the key is
    absent, 'max_samples' to 0.5, leaves every other key as it was, and
    returns that dict as the grid. For every other supported method the
    store, and with it the override, is unchanged. *)
Theorem bagging_writes_into_override
    X y (l : loc) random_state (h : store) (d : pydict) c :
  l1_min_c X y = ret c ->
  h !! l = Some d ->
  get_model l1_min_c "bagging" X y (Some l) random_state h
    = (ret (mk_model_dict
              (VEst BaggingClassifier
                    [("base_estimator", bagging_base random_state)])
              (GridRef l)),
       <[l := bagging_params random_state d]> h) /\
  bagging_params random_state d !! "base_estimator"
    = Some (bagging_base random_state) /\
  bagging_params random_state d !! "max_samples"
    = Some (default (VFloat (1 # 2)) (d !! "max_samples")) /\
  (forall k, k <> "base_estimator" -> k <> "max_samples" ->
             bagging_params random_state d !! k = d !! k) /\
  (forall method,
     method ∈ supported_methods -> method <> "bagging" ->
     (get_model l1_min_c method X y (Some l) random_state h).2 = h).
Proof.
  intros Hc Hl.
  split; [exact (get_model_bagging l1_min_c X y l random_state h d c Hc Hl)|].
  split; [apply bagging_params_base|].
  split; [apply bagging_params_max_samples|].
  split; [intros k; apply bagging_params_other|].
  intros method Hm Hne.
  destruct (get_model_other l1_min_c X y l random_state h c method
              Hc Hm Hne) as [clf ->].
  done.
Qed.

End RegistryClaims.

Lemma unsupported_method_raises_witness :
  Modeling.get_model_class "not-a-real-method" = raise NotImplementedError /\
  Wavelet.create_model "not-a-real-method" = raise NotImplementedError /\
  Modeling.get_model Tables.l1_min_c "not-a-real-method" [] [] None None ∅
    = (raise NotImplementedError, ∅).
Proof.
  destruct (unsupported_method_raises
              (PyG := list Z) (NpG := list Q)
              Tables.l1_min_c RoundRobin.kfold Tables.ParameterGrid
              Tables.fit Tables.train_test_split "not-a-real-method"
              ltac:(apply (bool_decide_unpack _); vm_compute; exact I))
    as (Hclass & Hcreate & Hget & _).
  split; [exact Hclass|]. split; [exact Hcreate|].
  apply (Hget [] [] None None ∅ 1%Q). reflexivity.
Defined.


Lemma bagging_writes_into_override_witness :
  Modeling.get_model Tables.l1_min_c "bagging" [] [] (Some 1%positive) None
                     override_store
    = (ret (mk_model_dict
              (VEst BaggingClassifier
                    [("base_estimator", Modeling.bagging_base None)])
              (GridRef 1%positive)),
       <[1%positive :=
           bagging_params None {[ "n_estimators" := VList [VInt 5] ]}]>
         override_store).
Proof.
  apply (proj1 (bagging_writes_into_override Tables.l1_min_c [] []
                  1%positive None override_store
                  {[ "n_estimators" := VList [VInt 5] ]} 1%Q
                  ltac:(reflexivity) ltac:(reflexivity))).
Defined.

(** C2, the claim fails where the double product is not the exact one.
    The float 0.7 is a little below 7/10, so the floor of its exact
    product with 10 preictal rows is 6; Python's product [0.7 * 10] rounds
    to 7.0. With 8 interictal rows the call draws 7 of them, not 6, and
    with 6 interictal rows it raises although 6 rows were there to draw.
    With the float 0.29 and 100 preictal rows the product is
    28.999999999999996 and 28 rows are drawn, where the floor of
    29/100 * 100 is 29. *)
Lemma downsampling_differs_from_exact_floor :
  let r := round_double (7 # 10) in
  let preictal := Tables.class_rows "preictal_segment_" 1 10 in
  let interictal n := Tables.class_rows "interictal_segment_" 0 n in
  Qfloor (r * inject_Z 10) = 6%Z /\
  (exists train test w',
     Wavelet.split_experiment_data (interictal 8) preictal 1 true r
                                   (Some 42%Z) Tables.ambient
       = (ret (train, test), w') /\
     length (filter (fun x => Preictal x = 0%Z) (train ++ test)) = 7 /\
     AfterDownsampling 7 ∈ console w') /\
  (exists w',
     Wavelet.split_experiment_data (interictal 6) preictal 1 true r
                                   (Some 42%Z) Tables.ambient
       = (raise ValueError, w')) /\
  Qfloor ((29 # 100) * inject_Z 100) = 29%Z /\
  (exists train test w',
     Wavelet.split_experiment_data
       (interictal 40) (Tables.class_rows "preictal_segment_" 1 100)
       1 true (round_double (29 # 100)) (Some 42%Z) Tables.ambient
       = (ret (train, test), w') /\
     AfterDownsampling 28 ∈ console w').
Proof.
  intros r preictal interictal.
  split; [vm_compute; reflexivity|].
  split.
  { eexists _, _, _. split; [vm_compute; reflexivity|].
    split; [vm_compute; reflexivity|].
    simpl. set_solver. }
  split.
  { eexists. vm_compute. reflexivity. }
  split; [vm_compute; reflexivity|].
  eexists _, _, _. split; [vm_compute; reflexivity|].
  simpl. set_solver.
Qed.

Lemma downsampling_draws_double_product_witness :
  let r := round_double (7 # 10) in
  let interictal := Tables.class_rows "interictal_segment_" 0 8 in
  let preictal := Tables.class_rows "preictal_segment_" 1 10 in
  exists sample train test w',
    Wavelet.split_experiment_data interictal preictal 1 true r (Some 42%Z)
                                  Tables.ambient
      = (ret (train, test), w') /\
    Z.of_nat (length sample) = 7%Z /\
    sample ⊆+ interictal /\
    train ++ test ≡ₚ sample ++ preictal /\
    AfterDownsampling (length sample) ∈ console w'.
Proof.
  intros r interictal preictal.
  apply (proj1 (downsampling_draws_double_product
                  interictal preictal 1 r (Some 42%Z) Tables.ambient
                  ltac:(vm_compute; discriminate)
                  ltac:(vm_compute; discriminate)
                  ltac:(apply (bool_decide_unpack _); vm_compute; exact I))).
  vm_compute. discriminate.
Defined.

(* ===================================================================== *)
(** * Further properties of the splitting code *)
(* ===================================================================== *)

Section MoreSelection.
Context {A : Type}.
Implicit Types (a pre : list A) (msk : list bool).

Lemma iloc_beyond pre msk :
  iloc pre (mask_positions_from (length pre) msk) = [].
Proof.
  apply elem_of_nil_inv. intros x Hx.
  apply elem_of_iloc in Hx as (i & Hi & Hix).
  apply elem_of_mask_positions_from in Hi as [Hle _].
  apply lookup_lt_Some in Hix. lia.
Qed.

Lemma mask_sublist_from pre a msk :
  iloc (pre ++ a) (mask_positions_from (length pre) msk) `sublist_of` a.
Proof.
  revert pre a. induction msk as [|b msk IH]; intros pre a.
  - apply sublist_nil_l.
  - destruct a as [|x a].
    + rewrite app_nil_r, iloc_beyond. constructor.
    + specialize (IH (pre ++ [x]) a).
      rewrite <- (assoc_L (++)), length_app in IH. simpl in IH.
      rewrite Nat.add_1_r in IH.
      destruct b; cbn [mask_positions_from].
      * rewrite iloc_cons.
        assert (Hx : (pre ++ x :: a) !! length pre = Some x)
          by (by rewrite lookup_app_r, Nat.sub_diag by lia).
        rewrite Hx. by constructor.
      * by constructor.
Qed.

Lemma boolean_index_sublist a msk : boolean_index a msk `sublist_of` a.
Proof. apply (mask_sublist_from [] a msk). Qed.

Lemma mask_all_true_from pre a msk :
  length msk = length a -> Forall (fun b => b = true) msk ->
  iloc (pre ++ a) (mask_positions_from (length pre) msk) = a.
Proof.
  revert pre a. induction msk as [|b msk IH]; intros pre a Hlen Hall.
  - by destruct a.
  - destruct a as [|x a]; [discriminate|].
    apply Forall_cons in Hall as [-> Hall]. simpl in Hlen.
    cbn [mask_positions_from]. rewrite iloc_cons.
    assert (Hx : (pre ++ x :: a) !! length pre = Some x)
      by (by rewrite lookup_app_r, Nat.sub_diag by lia).
    rewrite Hx. f_equal.
    specialize (IH (pre ++ [x]) a ltac:(lia) Hall).
    rewrite <- (assoc_L (++)), length_app in IH. simpl in IH.
    by rewrite Nat.add_1_r in IH.
Qed.

Lemma mask_all_false_from i msk :
  Forall (fun b => b = false) msk -> mask_positions_from i msk = [].
Proof.
  revert i. induction msk as [|b msk IH]; intros i Hall; [done|].
  apply Forall_cons in Hall as [-> Hall]. simpl. by apply IH.
Qed.

End MoreSelection.

Lemma index_injective_on (df : dataframe) (x y : row) :
  NoDup (map index df) -> x ∈ df -> y ∈ df -> index x = index y -> x = y.
Proof.
  intros Hnd Hx Hy Heq.
  apply list_elem_of_lookup in Hx as [i Hi].
  apply list_elem_of_lookup in Hy as [j Hj].
  assert (Hli : map index df !! i = Some (index x)).
  { pose proof (list_lookup_fmap index df i) as E.
    change (index <$> df) with (map index df) in E. by rewrite E, Hi. }
  assert (Hlj : map index df !! j = Some (index x)).
  { pose proof (list_lookup_fmap index df j) as E.
    change (index <$> df) with (map index df) in E. by rewrite E, Hj, Heq. }
  assert (i = j) by exact (NoDup_lookup _ i j _ Hnd Hli Hlj).
  subst j. congruence.
Qed.

Section MoreSplitting.
Context {PyG NpG : Type} `{Generators PyG NpG}.
Implicit Types (w : world PyG NpG) (df : dataframe).

Lemma random_split_rows_parts df (size : Q) seed w :
  NoDup (map index df) -> (0 <= size)%Q ->
  (Qfloor size <= Z.of_nat (length df))%Z ->
  exists idx w',
    Wavelet.random_split df None (Some size) seed w =
      (ret (iloc df idx, drop_rows df (map index (iloc df idx))), w') /\
    NoDup idx /\ length idx = Z.to_nat (Qfloor size) /\
    Forall (fun i => i < length df) idx.
Proof.
  intros Hnd Hpos Hle. unfold Wavelet.random_split.
  destruct (Wavelet.ensure_seed seed w) as [s w1].
  destruct (np_random_choice_sample (map index df) size (np_random w1) Hpos)
    as (idx & g' & -> & Hidx & Hlen & Hall); [by rewrite length_map|].
  rewrite length_map in Hall.
  exists idx. eexists. split; [|done].
  unfold ret. cbv beta iota.
  rewrite iloc_fmap, ix_labels; [reflexivity|done|].
  intros x. rewrite elem_of_iloc. intros (i & _ & Hi).
  by eapply list_elem_of_lookup_2.
Qed.

(** X1. Drawing a number of rows cuts the table in two: the drawn rows
    and the rows [dataframe.drop] leaves have no row in common, together
    they are the rows of the table, and the rows left keep their order. *)
Theorem drawn_rows_and_rest_partition df (size : Q) seed w :
  NoDup (map index df) -> (0 <= size)%Q ->
  (Qfloor size <= Z.of_nat (length df))%Z ->
  exists sample rest w',
    Wavelet.random_split df None (Some size) seed w
      = (ret (sample, rest), w') /\
    sample ++ rest ≡ₚ df /\
    rest `sublist_of` df /\
    (forall x, x ∈ sample -> x ∉ rest) /\
    Z.of_nat (length rest) = (Z.of_nat (length df) - Qfloor size)%Z.
Proof.
  intros Hnd Hpos Hle.
  destruct (random_split_rows_parts df size seed w Hnd Hpos Hle)
    as (idx & w' & Hrun & Hidx & Hlen & Hall).
  assert (Hdf : NoDup df) by (by apply (NoDup_fmap_1 index)).
  set (sample := iloc df idx) in *.
  set (rest := drop_rows df (map index sample)) in *.
  assert (Hsub : forall x, x ∈ sample -> x ∈ df).
  { intros x. unfold sample. rewrite elem_of_iloc. intros (i & _ & Hi).
    by eapply list_elem_of_lookup_2. }
  assert (Hrest : forall x,
            x ∈ rest <-> ((index x ∉ map index sample) /\ x ∈ df))
    by (intros x; unfold rest, drop_rows;
        apply (list_elem_of_filter (fun y => index y ∉ map index sample))).
  assert (Hlabel : forall x, x ∈ sample -> index x ∈ map index sample).
  { intros x Hx. change (map index sample) with (index <$> sample).
    apply list_elem_of_fmap. by exists x. }
  assert (Hdisj : forall x, x ∈ sample -> x ∉ rest).
  { intros x Hx Hr. apply Hrest in Hr as [Hn _]. by apply Hn, Hlabel. }
  assert (Hperm : sample ++ rest ≡ₚ df).
  { apply NoDup_Permutation; [|done|].
    - apply NoDup_app. split; [by apply iloc_NoDup|].
      split; [done|]. by apply NoDup_filter.
    - intros x. rewrite elem_of_app. split.
      + intros [Hx | Hx]; [by apply Hsub | by apply Hrest in Hx as [_ ?]].
      + intros Hx.
        destruct (decide (index x ∈ map index sample)) as [Hin|Hout].
        * left. change (map index sample) with (index <$> sample) in Hin.
          apply list_elem_of_fmap in Hin as (y & Heq & Hy).
          by rewrite (index_injective_on df x y Hnd Hx (Hsub y Hy) Heq).
        * right. by apply Hrest. }
  exists sample, rest, w'. split; [exact Hrun|].
  split; [exact Hperm|]. split; [apply sublist_filter|].
  split; [exact Hdisj|].
  apply Permutation_length in Hperm. rewrite length_app in Hperm.
  assert (length sample = length idx) by (by apply iloc_length).
  assert (0 <= Qfloor size)%Z by (apply (Qfloor_resp_le 0 size Hpos)).
  lia.
Qed.

(** X2. A split by ratio keeps the row order of the table on both
    sides: train and test are subsequences of the table. *)
Theorem random_split_keeps_row_order df (ratio : Q) desired_rows seed w :
  exists train test w',
    Wavelet.random_split df (Some ratio) desired_rows seed w
      = (ret (train, test), w') /\
    train `sublist_of` df /\ test `sublist_of` df.
Proof.
  destruct (random_split_ratio df ratio desired_rows seed w) as [w' Hrun].
  eexists _, _, w'. split; [exact Hrun|].
  split; apply boolean_index_sublist.
Qed.

(** X3. Called without a seed, [random_split] reseeds [np.random] from
    Python's generator before it draws: the partition and the state
    [np.random] is left in depend on the state of Python's generator
    only, not on the state [np.random] was in. *)
Theorem random_split_unseeded_resets_numpy
    df ratio desired_rows w1 w2 :
  py_random w1 = py_random w2 ->
  (Wavelet.random_split df ratio desired_rows None w1).1
    = (Wavelet.random_split df ratio desired_rows None w2).1 /\
  (ratio <> None \/ desired_rows <> None ->
   np_random (Wavelet.random_split df ratio desired_rows None w1).2
     = np_random (Wavelet.random_split df ratio desired_rows None w2).2).
Proof.
  intros Hpy. unfold Wavelet.random_split, Wavelet.ensure_seed.
  rewrite Hpy. destruct (randrange 0 4294967295 (py_random w2)) as [s py'].
  destruct ratio as [r|]; [|destruct desired_rows as [size|]]; simpl.
  - destruct (np_rand (length df) (np_seed s)) as [us g']. by split.
  - destruct (np_random_choice (map index df) size (np_seed s))
      as [[e|rows] g']; by split.
  - split; [done|]. by intros [? | ?].
Qed.

(** X4. When every number drawn is below the ratio, as with the ratio
    1.0 that [find_best_model] and [run_cross_validation] pass, the
    train side is the whole table in its order and the test side is
    empty. *)
Theorem random_split_all_below_ratio df (ratio : Q) desired_rows seed w :
  Forall (fun u => (u < ratio)%Q)
         (np_rand (length df)
                  (np_random (Wavelet.ensure_seed seed w).2)).1 ->
  (Wavelet.random_split df (Some ratio) desired_rows seed w).1
    = ret (df, []).
Proof.
  intros Hall.
  destruct (random_split_ratio df ratio desired_rows seed w) as [w' ->].
  simpl.
  assert (Htrue : Forall (fun b => b = true) (drawn_mask df ratio seed w)).
  { unfold drawn_mask. apply Forall_fmap. eapply Forall_impl; [exact Hall|].
    intros u Hu. unfold Qltb. simpl.
    destruct (Qle_bool ratio u) eqn:Hle; [|done].
    apply Qle_bool_iff in Hle. exfalso. exact (Qlt_not_le _ _ Hu Hle). }
  unfold boolean_index, mask_positions.
  rewrite (mask_all_true_from [] df) by (done || apply drawn_mask_length).
  rewrite mask_all_false_from; [done|].
  apply Forall_fmap. eapply Forall_impl; [exact Htrue|].
  by intros b ->.
Qed.

End MoreSplitting.

Lemma drawn_rows_and_rest_partition_witness :
  exists sample rest w',
    Wavelet.random_split Tables.interictal4 None (Some (5 # 2)%Q)
                         (Some 42%Z) Tables.ambient
      = (ret (sample, rest), w') /\
    sample ++ rest ≡ₚ Tables.interictal4 /\
    rest `sublist_of` Tables.interictal4 /\
    (forall x, x ∈ sample -> x ∉ rest) /\
    Z.of_nat (length rest) = 2%Z.
Proof.
  apply (drawn_rows_and_rest_partition Tables.interictal4 (5 # 2)%Q
           (Some 42%Z) Tables.ambient).
  - apply (bool_decide_unpack _). vm_compute. exact I.
  - unfold Qle. simpl. lia.
  - vm_compute. discriminate.
Defined.

Lemma random_split_unseeded_resets_numpy_witness :
  (Wavelet.random_split Tables.one_segment (Some (1 # 2)%Q) None None
                        Tables.ambient).1
  = (Wavelet.random_split Tables.one_segment (Some (1 # 2)%Q) None None
                          (mk_world [] [9 # 10; 9 # 10]%Q [])).1.
Proof.
  apply (proj1 (random_split_unseeded_resets_numpy
                  Tables.one_segment (Some (1 # 2)%Q) None
                  Tables.ambient (mk_world [] [9 # 10; 9 # 10]%Q [])
                  ltac:(reflexivity))).
Defined.

Lemma random_split_all_below_ratio_witness :
  (Wavelet.random_split Tables.one_segment (Some 1%Q) None (Some 42%Z)
                        Tables.ambient).1
  = ret (Tables.one_segment, []).
Proof.
  apply (random_split_all_below_ratio Tables.one_segment 1%Q None
           (Some 42%Z) Tables.ambient).
  vm_compute. repeat constructor.
Defined.

(* ===================================================================== *)
(** * Further properties of the registry and the drivers *)
(* ===================================================================== *)

Section MoreRegistry.
Import Modeling.
Context {features labels : Type}.
Variable l1_min_c : features -> labels -> result Q.

Lemma setitem_other l k v (h : store) l' :
  l' <> l -> setitem l k v h !! l' = h !! l'.
Proof.
  intros Hne. unfold setitem. destruct (h !! l); [|done].
  by rewrite lookup_insert_ne.
Qed.

Lemma setitem_dangling l k v (h : store) :
  h !! l = None -> setitem l k v h = h.
Proof. intros Hl. unfold setitem. by rewrite Hl. Qed.

(** X5. [get_model] writes to nothing but the dict it was handed as
    [model_params], and only on the bagging branch of a call that
    returns: every other dict of the store is as before; for any other
    method, without [model_params], or when the call raises, the whole
    store is as before. *)
Theorem get_model_writes_only_the_override
    (method : string) x y model_params random_state (h : store) :
  let out := get_model l1_min_c method x y model_params random_state h in
  (forall l', model_params <> Some l' -> out.2 !! l' = h !! l') /\
  (method <> "bagging" -> out.2 = h) /\
  (model_params = None -> out.2 = h) /\
  (forall e, out.1 = raise e -> out.2 = h).
Proof.
  unfold get_model. destruct (l1_min_c x y) as [e|min_c]; [by repeat split|].
  repeat (match goal with
          | |- context [String.eqb method ?m] =>
            destruct (String.eqb_spec method m) as [->|?];
              [try by repeat split|]
          end); [|by repeat split].
  destruct model_params as [l|]; [|by repeat split]. simpl.
  repeat split; try done.
  intros l' Hne. assert (l' <> l) by congruence.
  destruct (contains _ _ _); by rewrite ?setitem_other.
Qed.

(** X6. Calling [get_model] for 'bagging' again on the same override
    leaves the dict as one call with the later [random_state] would:
    'base_estimator' is overwritten on every call, also one the caller
    put there, and a 'max_samples' once present is never changed. *)
Theorem bagging_override_rewritten_each_call
    x1 y1 x2 y2 (l : loc) random_state1 random_state2 (h : store)
    (d : pydict) c1 c2 :
  l1_min_c x1 y1 = ret c1 ->
  l1_min_c x2 y2 = ret c2 ->
  h !! l = Some d ->
  let h1 := (get_model l1_min_c "bagging" x1 y1 (Some l) random_state1 h).2 in
  (get_model l1_min_c "bagging" x2 y2 (Some l) random_state2 h1).2
    = (get_model l1_min_c "bagging" x2 y2 (Some l) random_state2 h).2 /\
  (forall v, d !! "max_samples" = Some v ->
             forall d1, h1 !! l = Some d1 -> d1 !! "max_samples" = Some v) /\
  (forall d1, h1 !! l = Some d1 ->
              d1 !! "base_estimator" = Some (bagging_base random_state1)).
Proof.
  intros Hc1 Hc2 Hl h1. unfold h1.
  rewrite (get_model_bagging l1_min_c x1 y1 l random_state1 h d c1 Hc1 Hl).
  simpl.
  rewrite (get_model_bagging l1_min_c x2 y2 l random_state2
             (<[l := bagging_params random_state1 d]> h)
             (bagging_params random_state1 d) c2 Hc2)
    by apply lookup_insert_eq.
  rewrite (get_model_bagging l1_min_c x2 y2 l random_state2 h d c2 Hc2 Hl).
  simpl. rewrite insert_insert_eq.
  split; [|split].
  - f_equal. apply map_eq. intros k.
    destruct (decide (k = "base_estimator")) as [->|Hb].
    { by rewrite !bagging_params_base. }
    destruct (decide (k = "max_samples")) as [->|Hm].
    { rewrite !bagging_params_max_samples. by destruct (d !! "max_samples"). }
    by rewrite !bagging_params_other.
  - intros v Hv d1. rewrite lookup_insert_eq. intros [= <-].
    by rewrite bagging_params_max_samples, Hv.
  - intros d1. rewrite lookup_insert_eq. intros [= <-].
    apply bagging_params_base.
Qed.

(** X7. The two registries of [seizure_modeling.py] agree:
    [get_model_class] returns a class exactly for the supported method
    names, and for each of them [get_model] builds an estimator of that
    class. *)
Theorem registry_classes_agree (method : string) :
  (method ∈ supported_methods <->
   exists cls, get_model_class method = ret cls) /\
  (forall x y model_params random_state h c,
     l1_min_c x y = ret c ->
     method ∈ supported_methods ->
     exists cls kwargs g h',
       get_model_class method = ret cls /\
       get_model l1_min_c method x y model_params random_state h
         = (ret (mk_model_dict (VEst cls kwargs) g), h')).
Proof.
  split.
  - split.
    + unfold supported_methods. intros Hm.
      repeat (apply elem_of_cons in Hm as [-> | Hm]); try (by eexists).
      by apply elem_of_nil in Hm.
    + intros [cls Hcls].
      destruct (decide (method ∈ supported_methods)) as [|Hn]; [done|].
      rewrite (get_model_class_unsupported _ Hn) in Hcls. discriminate.
  - intros x y model_params random_state h c Hc Hm.
    unfold get_model. unfold ret in Hc. rewrite Hc.
    unfold supported_methods in Hm.
    repeat (apply elem_of_cons in Hm as [-> | Hm]);
      try (by eexists _, _, _, _).
    by apply elem_of_nil in Hm.
Qed.

End MoreRegistry.

(** X8. [create_model] of [wavelet_classification.py] accepts exactly
    'svm', 'sgd' and 'random-forest' and builds the class that
    [get_model_class] names for them, while [parameters_for_method] has a
    grid exactly for 'svm' and 'sgd': every other name, 'random-forest'
    among them, gets no grid. *)
Theorem create_model_and_its_grids (method : string) :
  (method ∈ ["svm"; "sgd"; "random-forest"] <->
   exists cls kwargs,
     Wavelet.create_model method = ret (VEst cls kwargs) /\
     Modeling.get_model_class method = ret cls) /\
  (method ∈ ["svm"; "sgd"] <->
   exists g, Wavelet.parameters_for_method method = Some g) /\
  (method ∉ ["svm"; "sgd"; "random-forest"] ->
   Wavelet.create_model method = raise NotImplementedError).
Proof.
  unfold Wavelet.create_model, Wavelet.parameters_for_method.
  split; [|split].
  - split.
    + intros Hm. repeat (apply elem_of_cons in Hm as [-> | Hm]);
        try (by eexists _, _). by apply elem_of_nil in Hm.
    + intros (cls & kwargs & Hc & _).
      repeat (match type of Hc with
              | context [String.eqb method ?m] =>
                destruct (String.eqb_spec method m) as [->|?];
                  [set_solver|]
              end).
      discriminate.
  - split.
    + intros Hm. repeat (apply elem_of_cons in Hm as [-> | Hm]);
        try (by eexists). by apply elem_of_nil in Hm.
    + intros [g Hg].
      repeat (match type of Hg with
              | context [String.eqb method ?m] =>
                destruct (String.eqb_spec method m) as [->|?];
                  [set_solver|]
              end).
      discriminate.
  - intros Hn.
    repeat (match goal with
            | |- context [String.eqb method ?m] =>
              destruct (String.eqb_spec method m) as [->|?];
                [exfalso; apply Hn; set_solver|]
            end).
    done.
Qed.

Lemma bagging_override_rewritten_each_call_witness :
  let h1 := (Modeling.get_model Tables.l1_min_c "bagging" [] []
               (Some 1%positive) (Some 7%Z) override_store).2 in
  (Modeling.get_model Tables.l1_min_c "bagging" [] [] (Some 1%positive) None
                      h1).2
  = (Modeling.get_model Tables.l1_min_c "bagging" [] [] (Some 1%positive) None
                        override_store).2.
Proof.
  apply (proj1 (bagging_override_rewritten_each_call Tables.l1_min_c
                  [] [] [] [] 1%positive (Some 7%Z) None override_store
                  {[ "n_estimators" := VList [VInt 5] ]} 1%Q 1%Q
                  ltac:(reflexivity) ltac:(reflexivity) ltac:(reflexivity))).
Defined.

Section MoreDrivers.
Context {PyG NpG : Type} `{Generators PyG NpG}.
Variable l1_min_c : matrix -> list Z -> result Q.
Variable StratifiedKFold : list Z -> nat -> option Z -> result (list (list bool)).
Variable ParameterGrid : list pydict -> list pydict.
Variable fit : value -> pydict -> matrix -> list Z -> result fitted.

(** X9. [select_model] with 'bagging' and an override leaves the
    caller's dict rewritten whether or not the grid search that follows
    succeeds: the store it ends with is the one [get_model] produced. *)
Theorem select_model_keeps_the_write
    (training_data : dataframe) do_segment_split (l : loc) random_state
    (h : store) (d : pydict) cv c :
  Modeling.get_cv_generator StratifiedKFold training_data do_segment_split
    random_state = ret cv ->
  l1_min_c (map feats training_data) (map Preictal training_data) = ret c ->
  h !! l = Some d ->
  (Modeling.select_model l1_min_c StratifiedKFold ParameterGrid fit
     training_data "bagging" do_segment_split (Some l) random_state h).2
  = <[l := bagging_params random_state d]> h.
Proof.
  intros Hcv Hc Hl. unfold Modeling.select_model. rewrite Hcv.
  by rewrite (get_model_bagging l1_min_c _ _ l random_state h d c Hc Hl).
Qed.

(** X10. The scorers of [find_best_model] are searched in order, each
    search replacing the one before: the loop over [scores ++ [s]] is the
    loop over [scores] followed by one search with [s], whose result is
    the one kept, and a search that raises ends the loop. *)
Theorem search_each_keeps_the_last
    model tuned_parameters cv X_train y_train scores (s : scorer) clf :
  Wavelet.search_each ParameterGrid fit model tuned_parameters cv
                      X_train y_train (scores ++ [s]) clf
  = (_ <- Wavelet.search_each ParameterGrid fit model tuned_parameters cv
                              X_train y_train scores clf ;;
     match tuned_parameters with
     | None => raise TypeError
     | Some g =>
       c <- GridSearchCV_fit ParameterGrid fit model g cv s X_train y_train ;;
       ret (Some c)
     end).
Proof.
  revert clf. induction scores as [|s0 scores IH]; intros clf; simpl.
  - destruct tuned_parameters as [g|]; [|done].
    by destruct (GridSearchCV_fit _ _ _ _ _ _ _ _).
  - destruct tuned_parameters as [g|]; [|done].
    destruct (GridSearchCV_fit ParameterGrid fit model g cv s0 X_train y_train);
      simpl; [done|].
    apply IH.
Qed.

End MoreDrivers.

Lemma select_model_keeps_the_write_witness :
  (Modeling.select_model Tables.l1_min_c RoundRobin.kfold Tables.ParameterGrid
     Tables.fit Tables.twenty_segments "bagging" true (Some 1%positive) None
     override_store).2
  = <[1%positive := bagging_params None {[ "n_estimators" := VList [VInt 5] ]}]>
      override_store.
Proof.
  eapply (select_model_keeps_the_write Tables.l1_min_c RoundRobin.kfold
            Tables.ParameterGrid Tables.fit Tables.twenty_segments true
            1%positive None override_store _ _ 1%Q).
  - vm_compute. reflexivity.
  - reflexivity.
  - reflexivity.
Defined.

(* ===================================================================== *)
(** * Properties of [run_classification] *)
(* ===================================================================== *)

Section RunFacts.
Context {PyG NpG : Type} `{Generators PyG NpG}.
Variable FS : Type.
Variable scores_table : Type.
Variable load_data_frames :
  string -> bool -> nat -> FS -> result (dataframe * dataframe * dataframe) * FS.
Variable timestamp : FS -> string.
Variable os_path_join : string -> string -> string.
Variable dump_estimator : string -> value -> FS -> result unit * FS.
Variable dump_search : string -> grid_search -> FS -> result unit * FS.
Variable write_scores :
  string -> dataframe -> grid_search -> string -> FS -> result scores_table * FS.
Variable StratifiedKFold : list Z -> nat -> option Z -> result (list (list bool)).
Variable ParameterGrid : list pydict -> list pydict.
Variable fit : value -> pydict -> matrix -> list Z -> result fitted.
Variable train_test_split :
  matrix -> list Z -> Q -> option Z
  -> result (matrix * matrix * list Z * list Z).
Variable report : grid_search -> matrix -> list Z -> result unit.

(** The searches of the whole function are those of its core: the report
    and the pickling can only end a run that the core would finish. *)
Lemma search_and_report_each_search
    model tuned_parameters cv X_train y_train X_test y_test scores clf c :
  search_and_report_each ParameterGrid fit report model tuned_parameters cv
    X_train y_train X_test y_test scores clf = ret c ->
  Wavelet.search_each ParameterGrid fit model tuned_parameters cv
    X_train y_train scores clf = ret c.
Proof.
  revert clf. induction scores as [|s scores IH]; intros clf; simpl; [done|].
  destruct tuned_parameters as [g|]; [|done].
  destruct (GridSearchCV_fit ParameterGrid fit model g cv s X_train y_train)
    as [e|c0]; simpl; [done|].
  destruct (report c0 X_test y_test); simpl; [done|]. apply IH.
Qed.

Lemma find_best_model_in_core
    (split_total :
       matrix -> list Z -> Q -> option Z -> matrix * matrix * list Z * list Z)
    feature_folder rebuild_data training_ratio scores do_downsample method
    seed (w w1 : world PyG NpG) (fs fs2 : FS) clf :
  find_best_model_in FS load_data_frames timestamp os_path_join
    dump_estimator StratifiedKFold ParameterGrid fit
    (fun X y test_size s => ret (split_total X y test_size s)) report
    feature_folder rebuild_data training_ratio scores do_downsample
    method seed w fs
  = (ret clf, w1, fs2) ->
  exists interictal preictal unlabeled fs1,
    load_data_frames feature_folder rebuild_data 4 fs
      = (ret (interictal, preictal, unlabeled), fs1) /\
    Wavelet.find_best_model StratifiedKFold ParameterGrid fit split_total
      interictal preictal training_ratio scores do_downsample method seed w
    = (ret clf, w1).
Proof.
  unfold find_best_model_in, Wavelet.find_best_model, raise, ret, rbind.
  destruct (load_data_frames feature_folder rebuild_data 4 fs)
    as [[e|[[interictal preictal] unlabeled]] fs1]; [discriminate|].
  intros Hrun. exists interictal, preictal, unlabeled, fs1.
  split; [done|]. revert Hrun.
  destruct (Wavelet.split_experiment_data interictal preictal 1
              do_downsample 1 seed w) as [[e|[complete_data rest]] w2];
    [discriminate|].
  cbv zeta.
  destruct (Wavelet.create_model method) as [e|model]; [discriminate|].
  destruct (split_total _ _ _ _) as [[[X_train X_test] y_train] y_test].
  destruct (StratifiedKFold y_train 10 None) as [e|test_masks];
    [discriminate|].
  destruct (search_and_report_each _ _ _ _ _ _ _ _ _ _ _ _) as [e|c] eqn:Hc;
    [discriminate|].
  apply search_and_report_each_search in Hc. unfold ret in Hc. rewrite Hc.
  destruct c as [c|]; destruct (dump_estimator _ _ _) as [[[]|[]] fs3];
    (discriminate || (intros [= -> -> ->]; reflexivity)).
Qed.

(** X11. With an empty list of scorers the loop of [find_best_model]
    binds no [clf]. Once the tables are read, the data split, the model
    created, the held-out rows set apart and the folds built, the function
    still pickles the unfitted model, and when that returns or raises the
    [TypeError] it catches, the [return clf] that follows raises
    [UnboundLocalError]: the files are as the pickling left them. *)
Theorem find_best_model_without_scorers
    feature_folder rebuild_data training_ratio do_downsample method seed
    (w w1 : world PyG NpG) (fs fs1 fs2 : FS)
    interictal preictal unlabeled complete_data rest model
    X_train X_test y_train y_test test_masks outcome :
  load_data_frames feature_folder rebuild_data 4 fs
    = (ret (interictal, preictal, unlabeled), fs1) ->
  Wavelet.split_experiment_data interictal preictal 1 do_downsample 1 seed w
    = (ret (complete_data, rest), w1) ->
  Wavelet.create_model method = ret model ->
  train_test_split (map feats complete_data) (map Preictal complete_data)
                   training_ratio seed
    = ret (X_train, X_test, y_train, y_test) ->
  StratifiedKFold y_train 10 None = ret test_masks ->
  dump_estimator
    (os_path_join feature_folder (model_basename method (timestamp fs1)))
    model fs1 = (outcome, fs2) ->
  outcome = ret tt \/ outcome = raise TypeError ->
  find_best_model_in FS load_data_frames timestamp os_path_join
    dump_estimator StratifiedKFold ParameterGrid fit train_test_split report
    feature_folder rebuild_data training_ratio (Some []) do_downsample
    method seed w fs
  = (raise UnboundLocalError, w1, fs2).
Proof.
  intros Hload Hsplit Hmodel Htts Hcv Hdump Hout.
  unfold find_best_model_in.
  unfold ret in *.
  rewrite Hload. cbv beta iota. rewrite Hsplit. cbv beta iota zeta.
  rewrite Hmodel. unfold rbind at 1. cbv beta iota.
  rewrite Htts. unfold rbind at 1. cbv beta iota.
  rewrite Hcv. simpl. rewrite Hdump.
  by destruct Hout as [-> | ->].
Qed.

(** X12. With [rebuild_model] false, its default, [run_classification]
    has no [model] to score with (the loading of a saved model is
    commented out): once the feature tables are read it raises
    [UnboundLocalError], and neither the generators nor the files are
    touched after the read, so no score is written. *)
Theorem run_classification_needs_rebuild
    feature_folder rebuild_data training_ratio model_file do_downsample
    method do_segment_split processes seed (w : world PyG NpG) (fs fs1 : FS)
    tables :
  load_data_frames feature_folder rebuild_data processes fs
    = (ret tables, fs1) ->
  run_classification FS scores_table load_data_frames timestamp os_path_join
    dump_estimator dump_search write_scores StratifiedKFold ParameterGrid
    fit train_test_split report feature_folder rebuild_data training_ratio
    false model_file do_downsample method do_segment_split processes seed
    w fs
  = (raise UnboundLocalError, w, fs1).
Proof.
  intros Hload. unfold run_classification. rewrite Hload.
  by destruct tables as [[interictal preictal] unlabeled].
Qed.

End RunFacts.

Lemma run_classification_needs_rebuild_witness :
  run_classification unit unit
    (fun _ _ _ fs => (ret (Tables.interictal4, Tables.preictal2,
                           Tables.no_rows), fs))
    (fun _ => "01-01-2015-00.00.00")
    (fun a b => String.append a (String.append "/" b))
    (fun _ _ fs => (ret tt, fs)) (fun _ _ fs => (ret tt, fs))
    (fun _ _ _ _ fs => (ret tt, fs))
    RoundRobin.kfold Tables.ParameterGrid Tables.fit
    (fun X y test_size seed => ret (Tables.train_test_split X y test_size seed))
    (fun _ _ _ => ret tt)
    "Dog_1" false 1 false None true "svm" false 4 None Tables.ambient tt
  = (raise UnboundLocalError, Tables.ambient, tt).
Proof.
  eapply (run_classification_needs_rebuild unit unit
            (fun _ _ _ fs => (ret (Tables.interictal4, Tables.preictal2,
                                   Tables.no_rows), fs))).
  reflexivity.
Defined.

Lemma find_best_model_without_scorers_witness :
  find_best_model_in unit
    (fun _ _ _ fs => (ret (firstn 10 Tables.twenty_segments,
                           skipn 10 Tables.twenty_segments,
                           Tables.no_rows), fs))
    (fun _ => "01-01-2015-00.00.00")
    (fun a b => String.append a (String.append "/" b))
    (fun _ _ fs => (raise TypeError, fs))
    RoundRobin.kfold Tables.ParameterGrid Tables.fit
    (fun X y test_size seed => ret (Tables.train_test_split X y test_size seed))
    (fun _ _ _ => ret tt)
    "Dog_1" false (4 # 5) (Some []) false "svm" (Some 1%Z) Tables.ambient tt
  = (raise UnboundLocalError,
     (Wavelet.split_experiment_data (firstn 10 Tables.twenty_segments)
        (skipn 10 Tables.twenty_segments) 1 false 1 (Some 1%Z)
        Tables.ambient).2,
     tt).
Proof.
  eapply (find_best_model_without_scorers unit
            (fun _ _ _ fs => (ret (firstn 10 Tables.twenty_segments,
                                   skipn 10 Tables.twenty_segments,
                                   Tables.no_rows), fs))).
  - reflexivity.
  - vm_compute. reflexivity.
  - reflexivity.
  - reflexivity.
  - vm_compute. reflexivity.
  - reflexivity.
  - right. reflexivity.
Defined.

(* ===================================================================== *)
(** * Properties of [assign_segment_scores] *)
(* ===================================================================== *)






(* ===================================================================== *)
(** * Properties of [extract_features_for_segment] *)
(* ===================================================================== *)

Lemma Qfloor_nonneg (x : Q) : (0 <= x)%Q -> (0 <= Qfloor x)%Z.
Proof. intros Hx. apply (Qfloor_resp_le 0 x Hx). Qed.

Lemma Qdiv_nonneg (a b : Q) : (0 <= a)%Q -> (0 < b)%Q -> (0 <= a / b)%Q.
Proof.
  intros Ha Hb. apply Qle_shift_div_l; [done|]. by rewrite Qmult_0_l.
Qed.

Section FeatureFacts.
Import Features.

Lemma length_flat_map_le {A B} (f : A -> list B) (l : list A) (c : nat) :
  (forall x, x ∈ l -> length (f x) <= c) ->
  length (flat_map f l) <= length l * c.
Proof.
  induction l as [|x l IH]; intros Hf; simpl; [lia|].
  rewrite length_app.
  pose proof (Hf x ltac:(left)).
  pose proof (IH (fun y Hy => Hf y ltac:(by right))). lia.
Qed.

Lemma length_flat_map_eq {A B} (f : A -> list B) (l : list A) (c : nat) :
  (forall x, x ∈ l -> length (f x) = c) ->
  length (flat_map f l) = length l * c.
Proof.
  induction l as [|x l IH]; intros Hf; simpl; [lia|].
  rewrite length_app.
  pose proof (Hf x ltac:(left)).
  pose proof (IH (fun y Hy => Hf y ltac:(by right))). lia.
Qed.

Lemma length_upper_from (a c : nat) :
  2 * length (flat_map (fun i => map (fun j => (i, j))
                                     (seq (S i) (a + c - S i)))
                       (seq a c))
  = c * (c - 1).
Proof.
  revert a. induction c as [|c IH]; intros a; [done|].
  simpl flat_map. rewrite length_app, length_map, length_seq.
  rewrite (flat_map_ext _ (fun i => map (fun j => (i, j))
                                        (seq (S i) (S a + c - S i)))).
  - specialize (IH (S a)). nia.
  - intros i. by replace (a + S c - S i) with (S a + c - S i) by lia.
Qed.

Lemma length_triu_indices (n : nat) :
  2 * length (triu_indices n) = n * (n - 1).
Proof. apply (length_upper_from 0 n). Qed.

Lemma elem_of_triu_indices (n i j : nat) :
  (i, j) ∈ triu_indices n -> i < j < n.
Proof.
  unfold triu_indices. rewrite list_elem_of_In, in_flat_map.
  intros (i' & Hi & Hj). apply in_map_iff in Hj as (j' & [= -> ->] & Hj).
  apply in_seq in Hi, Hj. lia.
Qed.

Lemma take_entries_length (m : matrix) ijs xs :
  take_entries m ijs = Some xs -> length xs = length ijs.
Proof.
  revert xs. induction ijs as [|[i j] ijs IH]; intros xs; simpl.
  - by intros [= <-].
  - destruct (m !! i) as [r|]; [|done].
    destruct (r !! j) as [x|]; [|done].
    destruct (take_entries m ijs) as [ys|]; [|done].
    intros [= <-]. simpl. by rewrite (IH ys).
Qed.

Lemma take_entries_present (m : matrix) ijs :
  (forall i j, (i, j) ∈ ijs ->
               exists r x, m !! i = Some r /\ r !! j = Some x) ->
  exists xs, take_entries m ijs = Some xs.
Proof.
  induction ijs as [|[i j] ijs IH]; intros Hall; simpl; [by eexists|].
  destruct (Hall i j ltac:(left)) as (r & x & -> & ->).
  destruct (IH (fun i' j' H' => Hall i' j' ltac:(by right))) as [xs ->].
  by eexists.
Qed.

Lemma xrange_frames (frames : Z) :
  (0 <= frames)%Z ->
  xrange 0 frames 1 = inr (map Z.of_nat (seq 0 (Z.to_nat frames))).
Proof.
  intros Hf. unfold xrange. simpl.
  replace ((frames - 0 + 1 - 1) / 1)%Z with frames by (rewrite Z.div_1_r; lia).
  f_equal. apply map_ext. intros k. lia.
Qed.

Lemma window_values_length n array_list k vs :
  window_values n array_list k = Some vs ->
  length vs = length (triu_indices n).
Proof.
  unfold window_values. destruct (py_index array_list k); [|done].
  apply take_entries_length.
Qed.

Lemma feature_length_le n decomposition frames offset :
  (0 <= frames)%Z ->
  length (feature n decomposition frames offset)
  <= length decomposition * (Z.to_nat frames * length (triu_indices n)).
Proof.
  intros Hf. unfold feature. rewrite xrange_frames by done.
  apply length_flat_map_le. intros array_list _.
  eapply Nat.le_trans.
  - apply (length_flat_map_le _ _ (length (triu_indices n))).
    intros i _. destruct (window_values _ _ _) as [vs|] eqn:Hvs.
    + by rewrite (window_values_length _ _ _ _ Hvs).
    + simpl. lia.
  - by rewrite length_map, length_seq.
Qed.

End FeatureFacts.

Section FeatureClaims.
Import Features.

Lemma frames_positive (feature_length_seconds window_size : Z) :
  (0 < window_size)%Z -> (window_size <= feature_length_seconds)%Z ->
  (1 <= feature_length_seconds / window_size)%Z.
Proof. intros Hw Hle. apply Z.div_le_lower_bound; lia. Qed.

Lemma total_windows_nonneg (duration : Q) (window_size : Z) :
  (0 < window_size)%Z -> (0 <= duration)%Q ->
  (0 <= int_of_float (duration / inject_Z window_size))%Z.
Proof.
  intros Hw Hd.
  assert (Hq : (0 <= duration / inject_Z window_size)%Q).
  { apply Qdiv_nonneg; [done|].
    change 0%Q with (inject_Z 0). by rewrite <- Zlt_Qlt. }
  rewrite int_of_float_nonneg by done. by apply Qfloor_nonneg.
Qed.

Lemma extract_features_run
    (duration : Q) (n_channels : nat) decomposition
    (feature_length_seconds window_size : Z) :
  (0 < window_size)%Z -> (window_size <= feature_length_seconds)%Z ->
  let frames := (feature_length_seconds / window_size)%Z in
  let total_windows := int_of_float (duration / inject_Z window_size) in
  let features :=
    map (feature n_channels decomposition frames)
        (map (fun k : nat => (0 + Z.of_nat k * frames)%Z)
             (seq 0 (Z.to_nat ((total_windows - 0 + frames - 1) / frames)))) in
  extract_features_for_segment duration n_channels decomposition
                               feature_length_seconds window_size
  = inr (features,
         if (Z.of_nat (length features)
             =? int_of_float (duration / inject_Z feature_length_seconds))%Z
         then None
         else Some (int_of_float (duration / inject_Z feature_length_seconds),
                    length features)).
Proof.
  intros Hw Hle frames total_windows features.
  pose proof (frames_positive _ _ Hw Hle) as Hf. fold frames in Hf.
  unfold extract_features_for_segment, xrange. fold frames.
  destruct (Z.eqb_spec window_size 0); [lia|].
  destruct (Z.eqb_spec feature_length_seconds 0); [lia|].
  destruct (Z.eqb_spec frames 0); [lia|].
  destruct (Z.ltb_spec 0 frames); [|lia].
  done.
Qed.

(** X15. With a positive window size that does not exceed the feature
    length, and a non-negative duration, [extract_features_for_segment]
    returns: windows that are missing raise nothing. It yields one
    feature per started group of [frames] windows, the number of windows
    divided by [frames] and rounded up; no feature holds more than
    bands * frames * n(n-1)/2 values; and the warning is printed exactly
    when that count differs from [int(duration / feature_length_seconds)]. *)
Theorem feature_count_and_size
    (duration : Q) (n_channels : nat) (decomposition : list (list matrix))
    (feature_length_seconds window_size : Z) :
  (0 < window_size)%Z ->
  (window_size <= feature_length_seconds)%Z ->
  (0 <= duration)%Q ->
  let frames := (feature_length_seconds / window_size)%Z in
  let total_windows := int_of_float (duration / inject_Z window_size) in
  exists features warning,
    extract_features_for_segment duration n_channels decomposition
                                 feature_length_seconds window_size
      = inr (features, warning) /\
    Z.of_nat (length features)
      = ((total_windows + frames - 1) / frames)%Z /\
    Forall (fun f => 2 * length f
                     <= length decomposition * Z.to_nat frames
                        * (n_channels * (n_channels - 1)))
           features /\
    (warning = None <->
     Z.of_nat (length features)
       = int_of_float (duration / inject_Z feature_length_seconds)).
Proof.
  intros Hw Hle Hd frames total_windows.
  pose proof (frames_positive _ _ Hw Hle) as Hf. fold frames in Hf.
  pose proof (total_windows_nonneg _ _ Hw Hd) as Ht. fold total_windows in Ht.
  rewrite (extract_features_run duration n_channels decomposition
             feature_length_seconds window_size Hw Hle).
  fold frames total_windows.
  eexists _, _. split; [reflexivity|].
  split; [|split].
  - rewrite !length_map, length_seq.
    rewrite Z2Nat.id by (apply Z.div_pos; lia).
    f_equal. lia.
  - apply Forall_forall. intros f Hfin.
    change (map ?g ?l) with (g <$> l) in Hfin.
    apply list_elem_of_fmap in Hfin as (offset & -> & _).
    pose proof (feature_length_le n_channels decomposition frames offset
                  ltac:(lia)) as Hlen.
    pose proof (length_triu_indices n_channels). nia.
  - match goal with
    | |- context [Z.eqb ?a ?b] => destruct (Z.eqb_spec a b) as [Heq|Hne]
    end; split; try done.
Qed.

(** X16. A feature whose windows are all there is full: when every band
    holds, for each of the [frames] windows of feature [k], an array with
    all entries above the diagonal for [n] channels, feature [k] has
    exactly bands * frames * n(n-1)/2 values. *)
Theorem full_windows_give_full_feature
    (duration : Q) (n_channels : nat) (decomposition : list (list matrix))
    (feature_length_seconds window_size : Z) (k : nat) :
  (0 < window_size)%Z ->
  (window_size <= feature_length_seconds)%Z ->
  (0 <= duration)%Q ->
  let frames := (feature_length_seconds / window_size)%Z in
  let total_windows := int_of_float (duration / inject_Z window_size) in
  (Z.of_nat k * frames < total_windows)%Z ->
  (forall band, band ∈ decomposition ->
     forall i : nat,
       (Z.of_nat k * frames <= Z.of_nat i < (Z.of_nat k + 1) * frames)%Z ->
       exists m, band !! i = Some m /\
         forall a b, a < b < n_channels ->
                     exists r x, m !! a = Some r /\ r !! b = Some x) ->
  exists features warning f,
    extract_features_for_segment duration n_channels decomposition
                                 feature_length_seconds window_size
      = inr (features, warning) /\
    features !! k = Some f /\
    2 * length f
      = length decomposition * Z.to_nat frames
        * (n_channels * (n_channels - 1)).
Proof.
  intros Hw Hle Hd frames total_windows Hk Hfull.
  pose proof (frames_positive _ _ Hw Hle) as Hf. fold frames in Hf.
  rewrite (extract_features_run duration n_channels decomposition
             feature_length_seconds window_size Hw Hle).
  fold frames total_windows.
  eexists _, _, (feature n_channels decomposition frames
                         (0 + Z.of_nat k * frames)).
  split; [reflexivity|]. split.
  - change (map ?g ?l) with (g <$> l).
    rewrite !list_lookup_fmap, lookup_seq_lt; [done|].
    apply Nat2Z.inj_lt. rewrite Z2Nat.id by (apply Z.div_pos; lia).
    apply Z.lt_le_trans with ((Z.of_nat k * frames + frames) / frames)%Z.
    + rewrite Z.div_add_l by lia. rewrite Z.div_same by lia. lia.
    + apply Z.div_le_mono; lia.
  - unfold feature. rewrite xrange_frames by lia.
    assert (Hband : forall band, band ∈ decomposition ->
              length (flat_map
                (fun i => match window_values n_channels band
                                  (i + (0 + Z.of_nat k * frames)) with
                          | Some sync_values => sync_values
                          | None => []
                          end)
                (map Z.of_nat (seq 0 (Z.to_nat frames))))
              = Z.to_nat frames * length (triu_indices n_channels)).
    { intros band Hband.
      rewrite (length_flat_map_eq _ _ (length (triu_indices n_channels))).
      - by rewrite length_map, length_seq.
      - intros i Hi. change (map ?g ?l) with (g <$> l) in Hi.
        apply list_elem_of_fmap in Hi as (i' & -> & Hi').
        apply elem_of_seq in Hi'.
        destruct (Hfull band Hband (Z.to_nat (Z.of_nat i' + Z.of_nat k * frames))
                    ltac:(rewrite Z2Nat.id by lia; nia))
          as (m & Hm & Hentries).
        unfold window_values, py_index.
        destruct (Z.leb_spec 0 (Z.of_nat i' + (0 + Z.of_nat k * frames)));
          [|nia].
        replace (Z.of_nat i' + (0 + Z.of_nat k * frames))%Z
          with (Z.of_nat i' + Z.of_nat k * frames)%Z by lia.
        rewrite Hm.
        destruct (take_entries_present m (triu_indices n_channels))
          as [xs Hxs].
        { intros a b Hab. apply Hentries.
          by apply elem_of_triu_indices. }
        rewrite Hxs. exact (take_entries_length m _ xs Hxs). }
    rewrite (length_flat_map_eq _ _
               (Z.to_nat frames * length (triu_indices n_channels)) Hband).
    pose proof (length_triu_indices n_channels). nia.
Qed.

End FeatureClaims.

Lemma feature_count_and_size_witness :
  exists features warning,
    Features.extract_features_for_segment 15 2
      [[ [[0; 1]; [0; 0]]; [[0; 2]; [0; 0]]; [[0; 3]; [0; 0]] ]]%Q 10 5
      = inr (features, warning) /\
    Z.of_nat (length features) = 2%Z /\
    Forall (fun f => 2 * length f <= 1 * 2 * (2 * (2 - 1))) features /\
    (warning = None <-> Z.of_nat (length features) = 1%Z).
Proof.
  apply (feature_count_and_size 15 2
           [[ [[0; 1]; [0; 0]]; [[0; 2]; [0; 0]]; [[0; 3]; [0; 0]] ]]%Q 10 5);
    [lia | lia | unfold Qle; simpl; lia].
Defined.

Lemma full_windows_give_full_feature_witness :
  exists features warning f,
    Features.extract_features_for_segment 15 2
      [[ [[0; 1]; [0; 0]]; [[0; 2]; [0; 0]]; [[0; 3]; [0; 0]] ]]%Q 10 5
      = inr (features, warning) /\
    features !! 0 = Some f /\
    2 * length f = 1 * 2 * (2 * (2 - 1)).
Proof.
  apply (full_windows_give_full_feature 15 2
           [[ [[0; 1]; [0; 0]]; [[0; 2]; [0; 0]]; [[0; 3]; [0; 0]] ]]%Q 10 5 0);
    [lia | lia | unfold Qle; simpl; lia | vm_compute; reflexivity |].
  intros band Hband i Hi.
  apply list_elem_of_singleton in Hband. subst band.
  change ((10 / 5)%Z) with 2%Z in Hi.
  assert (i = 0 \/ i = 1) as [-> | ->] by lia.
  - eexists. split; [reflexivity|].
    intros a b Hab. assert (a = 0 /\ b = 1) as [-> ->] by lia.
    by eexists _, _.
  - eexists. split; [reflexivity|].
    intros a b Hab. assert (a = 0 /\ b = 1) as [-> ->] by lia.
    by eexists _, _.
Defined.

(* ===================================================================== *)
(** * Properties of [cm_report] *)
(* ===================================================================== *)

Section ReportFacts.
Import Report.

Lemma string_length_append (a b : string) :
  String.length (String.append a b) = String.length a + String.length b.
Proof. induction a as [|c a IH]; simpl; [done | by rewrite IH]. Qed.

Lemma length_spaces (n : nat) : String.length (spaces n) = n.
Proof. induction n as [|n IH]; simpl; [done | by rewrite IH]. Qed.

Lemma length_rjust (w : nat) (s : string) :
  String.length (rjust w s) = Nat.max w (String.length s).
Proof. unfold rjust. rewrite string_length_append, length_spaces. lia. Qed.

Lemma length_ljust (w : nat) (s : string) :
  String.length (ljust w s) = Nat.max w (String.length s).
Proof. unfold ljust. rewrite string_length_append, length_spaces. lia. Qed.

Lemma label_within_width (labels : list string) (l : string) :
  l ∈ labels ->
  String.length l <= fold_right Nat.max 0 (map String.length labels).
Proof.
  induction labels as [|x labels IH]; intros Hl; [by inversion Hl|].
  apply elem_of_cons in Hl as [-> | Hl]; simpl; [lia|].
  specialize (IH Hl). lia.
Qed.

Lemma mapM_present {A B} (f : A -> result B) (l : list A) :
  (forall x, x ∈ l -> exists y, f x = ret y) ->
  exists ys, mapM f l = ret ys.
Proof.
  induction l as [|x l IH]; intros Hall; simpl; [by eexists|].
  destruct (Hall x ltac:(left)) as [y ->].
  destruct (IH (fun z Hz => Hall z ltac:(by right))) as [ys ->].
  by eexists.
Qed.

Lemma mapM_total {A B} (f : A -> result B) (g : A -> B) (l : list A) :
  (forall x, x ∈ l -> f x = ret (g x)) -> mapM f l = ret (map g l).
Proof.
  induction l as [|x l IH]; intros Hall; simpl; [done|].
  rewrite (Hall x ltac:(left)). simpl.
  by rewrite (IH (fun z Hz => Hall z ltac:(by right))).
Qed.

Lemma mapM_raise {A B} (f : A -> result B) (l : list A) (x : A) (e : exn) :
  x ∈ l -> (forall z, z ∈ l -> f z = raise e \/ exists y, f z = ret y) ->
  f x = raise e -> mapM f l = raise e.
Proof.
  induction l as [|z l IH]; intros Hx Hall Hfx; [by inversion Hx|].
  simpl. destruct (Hall z ltac:(left)) as [-> | [y Hy]]; [done|].
  rewrite Hy. simpl.
  apply elem_of_cons in Hx as [-> | Hx]; [unfold raise, ret in *; congruence|].
  by rewrite (IH Hx (fun u Hu => Hall u ltac:(by right)) Hfx).
Qed.

(** X17. For a non-empty list of labels and a matrix that has an entry
    for every pair of labels, [cm_report] lays out a table of one header
    row and one row per label; every row has one cell per label after
    its leading cell, no cell is narrower than the longest label, and the
    leading cells are exactly that wide. A number with more digits than
    the longest label has characters is not cut: its cell is as wide as
    the number. *)
Theorem cm_report_table (cm : list (list Z)) (labels : list string) :
  labels <> [] ->
  (forall i j, i < length labels -> j < length labels ->
               exists row x, cm !! i = Some row /\ row !! j = Some x) ->
  exists w table,
    columnwidth_of labels = ret w /\
    cm_cells cm labels = ret table /\
    (forall l, l ∈ labels -> String.length l <= w) /\
    length table = S (length labels) /\
    Forall (fun row =>
              length row = S (length labels) /\
              Forall (fun c => w <= String.length c) row /\
              exists c rest, row = c :: rest /\ String.length c = w)
           table /\
    (forall i j row x,
       cm !! i = Some row -> row !! j = Some x ->
       i < length labels -> j < length labels ->
       exists cells c,
         table !! S i = Some cells /\ cells !! S j = Some c /\
         String.length c = Nat.max w (String.length (pretty x))).
Proof.
  intros Hne Hcm.
  set (w := fold_right Nat.max 0 (map String.length labels)).
  assert (Hw : columnwidth_of labels = ret w) by (by destruct labels).
  assert (Hlab : forall l, l ∈ labels -> String.length l <= w)
    by apply label_within_width.
  set (cells_of := fun i : nat =>
         map (fun j => rjust w (pretty (default 0%Z
                (cm !! i ≫= fun row => row !! j))))
             (seq 0 (length labels))).
  assert (Hcells : forall i, i < length labels ->
            mapM (fun j => x <- entry cm i j ;; ret (rjust w (pretty x)))
                 (seq 0 (length labels)) = ret (cells_of i)).
  { intros i Hi. apply mapM_total. intros j Hj.
    apply elem_of_seq in Hj.
    destruct (Hcm i j Hi ltac:(lia)) as (row & x & Hrow & Hx).
    unfold entry. rewrite Hrow. simpl. by rewrite Hx. }
  set (row_of := fun il : nat * string => ljust w il.2 :: cells_of il.1).
  set (rows := map row_of (imap pair labels)).
  assert (Hrows : mapM (fun il : nat * string =>
                    cells <- mapM (fun j => x <- entry cm il.1 j ;;
                                            ret (rjust w (pretty x)))
                                  (seq 0 (length labels)) ;;
                    ret (ljust w il.2 :: cells))
                  (imap pair labels) = ret rows).
  { apply mapM_total. intros [i l] Hil.
    apply elem_of_lookup_imap in Hil as (i' & l' & [= -> ->] & Hl).
    apply lookup_lt_Some in Hl. simpl. by rewrite Hcells. }
  assert (Hrow_at : forall i l, labels !! i = Some l ->
            rows !! i = Some (ljust w l :: cells_of i)).
  { intros i l Hl. unfold rows. change (map ?g ?k) with (g <$> k).
    by rewrite list_lookup_fmap, list_lookup_imap, Hl. }
  exists w, (map (rjust w) (EmptyString :: labels) :: rows).
  split; [exact Hw|].
  split; [unfold cm_cells; rewrite Hw; simpl; by rewrite Hrows|].
  split; [exact Hlab|].
  split; [simpl; unfold rows; by rewrite length_map, length_imap|].
  split.
  - apply Forall_cons. split.
    + split; [simpl; by rewrite length_map|].
      split.
      * apply Forall_forall. intros c Hc.
        change (map ?g ?l) with (g <$> l) in Hc.
        apply list_elem_of_fmap in Hc as (s & -> & _).
        rewrite length_rjust. lia.
      * eexists _, _. split; [reflexivity|].
        rewrite length_rjust. simpl. lia.
    + apply Forall_forall. intros row Hrow.
      apply list_elem_of_lookup in Hrow as [i Hrow].
      assert (Hi : i < length labels).
      { apply lookup_lt_Some in Hrow. unfold rows in Hrow.
        by rewrite length_map, length_imap in Hrow. }
      destruct (lookup_lt_is_Some_2 labels i Hi) as [l Hl].
      rewrite (Hrow_at i l Hl) in Hrow. injection Hrow as <-.
      split; [simpl; unfold cells_of; by rewrite length_map, length_seq|].
      assert (String.length l <= w)
        by (apply Hlab; by eapply list_elem_of_lookup_2).
      split.
      * apply Forall_cons. split; [rewrite length_ljust; lia|].
        apply Forall_forall. intros c Hc. unfold cells_of in Hc.
        change (map ?g ?l) with (g <$> l) in Hc.
        apply list_elem_of_fmap in Hc as (j & -> & _).
        rewrite length_rjust. lia.
      * eexists _, _. split; [reflexivity|]. rewrite length_ljust. lia.
  - intros i j row x Hrow Hx Hi Hj.
    destruct (lookup_lt_is_Some_2 labels i Hi) as [l Hl].
    exists (ljust w l :: cells_of i), (rjust w (pretty x)).
    split; [simpl; by apply Hrow_at|].
    split; [|apply length_rjust].
    simpl. unfold cells_of.
    change (map ?g ?l) with (g <$> l).
    rewrite list_lookup_fmap, lookup_seq_lt by done. simpl.
    rewrite Hrow. simpl. by rewrite Hx.
Qed.

Lemma mapM_either {A B} (f : A -> result B) (l : list A) (e : exn) :
  (forall x, x ∈ l -> f x = raise e \/ exists y, f x = ret y) ->
  mapM f l = raise e \/ exists ys, mapM f l = ret ys.
Proof.
  induction l as [|x l IH]; intros Hall; simpl; [right; by eexists|].
  destruct (Hall x ltac:(left)) as [-> | [y ->]]; [by left|]. simpl.
  destruct (IH (fun z Hz => Hall z ltac:(by right))) as [-> | [ys ->]];
    [by left | right; by eexists].
Qed.

Lemma entry_either (cm : list (list Z)) (i j : nat) :
  entry cm i j = raise IndexError \/ exists x, entry cm i j = ret x.
Proof.
  unfold entry. destruct (cm !! i) as [row|]; [|by left].
  destruct (row !! j); [right; by eexists | by left].
Qed.

(** X18. [cm_report] fails rather than print a partial table: with no
    labels it raises [ValueError] (the maximum of an empty list), and
    when the matrix has fewer rows than there are labels it raises
    [IndexError]. *)
Theorem cm_report_refuses (cm : list (list Z)) (labels : list string)
    (sep : string) :
  (labels = [] -> cm_report cm labels sep = raise ValueError) /\
  (labels <> [] -> length cm < length labels ->
   cm_report cm labels sep = raise IndexError).
Proof.
  split; [by intros ->|].
  intros Hne Hshort. unfold cm_report, cm_cells.
  assert (Hw : columnwidth_of labels
               = ret (fold_right Nat.max 0 (map String.length labels)))
    by (by destruct labels).
  rewrite Hw. simpl rbind at 1.
  set (w := fold_right Nat.max 0 (map String.length labels)).
  set (cell := fun i j => x <- entry cm i j ;; ret (rjust w (pretty x))).
  assert (Hcell : forall i j,
            cell i j = raise IndexError \/ exists y, cell i j = ret y).
  { intros i j. unfold cell.
    destruct (entry_either cm i j) as [-> | [x ->]];
      [by left | right; by eexists]. }
  set (f := fun il : nat * string =>
              cells <- mapM (cell il.1) (seq 0 (length labels)) ;;
              ret (ljust w il.2 :: cells)).
  assert (Hrow : forall il,
            f il = raise IndexError \/ exists y, f il = ret y).
  { intros il. unfold f.
    destruct (mapM_either (cell il.1) (seq 0 (length labels)) IndexError
                (fun j _ => Hcell il.1 j)) as [-> | [ys ->]];
      [by left | right; by eexists]. }
  destruct (lookup_lt_is_Some_2 labels (length cm) Hshort) as [l Hl].
  assert (Hbad : f (length cm, l) = raise IndexError).
  { unfold f. simpl.
    rewrite (mapM_raise (cell (length cm)) _ 0 IndexError); [done| | |].
    - apply elem_of_seq. destruct labels; [done | simpl; lia].
    - intros j _. apply Hcell.
    - unfold cell, entry.
      by rewrite (lookup_ge_None_2 cm (length cm)) by lia. }
  change (mapM _ (imap pair labels)) with (mapM f (imap pair labels)).
  rewrite (mapM_raise f _ (length cm, l) IndexError); [done| | |exact Hbad].
  - apply elem_of_lookup_imap. by exists (length cm), l.
  - intros il _. apply Hrow.
Qed.

End ReportFacts.

Lemma cm_report_table_witness :
  exists w table,
    Report.columnwidth_of ["Interictal"; "Preictal"] = ret w /\
    Report.cm_cells [[12; 3]; [4; 5]]%Z ["Interictal"; "Preictal"]
      = ret table /\
    (forall l, l ∈ ["Interictal"; "Preictal"] -> String.length l <= w) /\
    length table = 3 /\
    Forall (fun row =>
              length row = 3 /\
              Forall (fun c => w <= String.length c) row /\
              exists c rest, row = c :: rest /\ String.length c = w)
           table /\
    (forall i j row x,
       [[12; 3]; [4; 5]]%Z !! i = Some row -> row !! j = Some x ->
       i < 2 -> j < 2 ->
       exists cells c,
         table !! S i = Some cells /\ cells !! S j = Some c /\
         String.length c = Nat.max w (String.length (pretty x))).
Proof.
  apply (cm_report_table [[12; 3]; [4; 5]]%Z ["Interictal"; "Preictal"]).
  - discriminate.
  - intros i j Hi Hj. simpl in Hi, Hj.
    assert (i = 0 \/ i = 1) as [-> | ->] by lia;
      assert (j = 0 \/ j = 1) as [-> | ->] by lia;
      by eexists _, _.
Defined.
